(** * foxpass_mac_update: the REST client, the MAC client and the CLI driver

    A shallow embedding of [src/foxpass_mac_update.py] and of the part of
    [src/utils.py] it calls.  Python values that come back from
    [response.json()] are kept as a small value type; the remote service
    is an interface ([Network]) the client talks to; every method is a
    computation over one state record holding the connection, the header
    dictionary of the client object, the logger calls made so far and the
    HTTP exchanges made so far. *)

From Stdlib Require Import ZArith List String Ascii Bool Lia PrimFloat.
From stdpp Require Import base option list strings gmap.

Local Open Scope Z_scope.
Local Open Scope string_scope.
Local Open Scope list_scope.

(** ** Python values *)

(** What [json.loads] can produce.  A dict is kept as an association list
    in insertion order, since iterating a dict yields its keys in that
    order. *)
#[local] Unset Elimination Schemes.
Inductive pyval : Type :=
| PNone
| PBool (b : bool)
| PInt (z : Z)
| PFloat (f : float)
| PStr (s : string)
| PList (l : list pyval)
| PDict (kv : list (string * pyval)).
#[local] Set Elimination Schemes.

(** [bool(v)], as used by [while url:] and [if not mac_group:]. *)
Definition truthy (v : pyval) : bool :=
  match v with
  | PNone => false
  | PBool b => b
  | PInt z => negb (Z.eqb z 0)
  | PFloat f => negb (PrimFloat.eqb f PrimFloat.zero)
  | PStr s => negb (String.eqb s "")
  | PList l => match l with [] => false | _ => true end
  | PDict kv => match kv with [] => false | _ => true end
  end.

Fixpoint dict_get (kv : list (string * pyval)) (k : string) : option pyval :=
  match kv with
  | [] => None
  | (k', v) :: kv' => if String.eqb k' k then Some v else dict_get kv' k
  end.

(** The exceptions the program can meet. *)
Inductive exn : Type :=
| JSONDecodeError
| AttributeError
| TypeError
| MissingSchema
| RequestException (what : string)
| PermissionError
| OSError (what : string)
| SystemExit (code : Z).

Inductive outcome (A : Type) : Type :=
| Ok (a : A)
| Raise (e : exn).
Arguments Ok {A} a.
Arguments Raise {A} e.

(** [d.get(k, default)]: only a dict has [get]. *)
Definition py_get (d : pyval) (k : string) (default : pyval) : outcome pyval :=
  match d with
  | PDict kv => Ok (match dict_get kv k with Some v => v | None => default end)
  | _ => Raise AttributeError
  end.

(** [v == s] for a string literal [s]: no other JSON value equals a str. *)
Definition py_eq_str (v : pyval) (s : string) : bool :=
  match v with
  | PStr s' => String.eqb s' s
  | _ => false
  end.

Fixpoint chars (s : string) : list pyval :=
  match s with
  | EmptyString => []
  | String c s' => PStr (String c EmptyString) :: chars s'
  end.

(** What [list.extend(v)] appends: the items of a list, the characters of
    a str, the keys of a dict; anything else is not iterable. *)
Definition py_iter (v : pyval) : outcome (list pyval) :=
  match v with
  | PList l => Ok l
  | PStr s => Ok (chars s)
  | PDict kv => Ok (map (fun p => PStr (fst p)) kv)
  | _ => Raise TypeError
  end.

(** ** HTTP *)

Inductive verb : Type := GET | POST | PUT | DELETE.

Record request : Type := mkRequest {
  method : verb;
  url : string;
  req_headers : gmap string string;
  req_json : option pyval
}.

(** [json] is what [response.json()] gives: [None] when the body is not
    JSON and the call raises. *)
Record response : Type := mkResponse {
  status_code : Z;
  text : string;
  json : option pyval
}.

(** The remote side: a connection state and what one request does to it.
    [requests] either hands back a response or raises. *)
Class Network : Type := {
  conn : Type;
  transmit : conn -> request -> outcome response * conn
}.

(** ** Logging *)

Inductive level : Type := DEBUG | INFO | WARNING | ERROR | CRITICAL.

Definition levelno (l : level) : Z :=
  match l with
  | DEBUG => 10 | INFO => 20 | WARNING => 30 | ERROR => 40 | CRITICAL => 50
  end.

Definition getLevelName (l : level) : string :=
  match l with
  | DEBUG => "DEBUG" | INFO => "INFO" | WARNING => "WARNING"
  | ERROR => "ERROR" | CRITICAL => "CRITICAL"
  end.

(** An f-string, kept as its parts. *)
Inductive piece : Type :=
| Lit (s : string)
| FmtInt (z : Z)
| FmtVal (v : pyval).

Record log_record : Type := mkLog {
  lvl : level;
  msg : list piece
}.

(** ** The state the program runs in *)

Section Client.
Context `{Network}.

Record state : Type := mkState {
  net : conn;
  headers : gmap string string;
  handlers : option level;
  log : list log_record;
  exchanges : list (request * outcome response)
}.

Definition M (A : Type) : Type := state -> outcome A * state.

Definition ret {A} (a : A) : M A := fun w => (Ok a, w).

Definition raise {A} (e : exn) : M A := fun w => (Raise e, w).

Definition bind {A B} (c : M A) (k : A -> M B) : M B :=
  fun w =>
    match c w with
    | (Ok a, w') => k a w'
    | (Raise e, w') => (Raise e, w')
    end.

Definition lift {A} (o : outcome A) : M A := fun w => (o, w).

End Client.

Arguments state {_}.
Arguments M {_} A.

Declare Scope py_scope.
Delimit Scope py_scope with py.
Notation "x <- c ;; k" := (bind c (fun x => k))
  (at level 100, c at next level, right associativity) : py_scope.
Notation "c ;; k" := (bind c (fun _ => k))
  (at level 100, right associativity) : py_scope.

Local Open Scope py_scope.

(** ** Logging and [requests] *)

Section Primitives.
Context `{Network}.

(** [logger.debug], [logger.error], ...: the call is recorded with its
    level; which records reach a handler is [emitted] below. *)
Definition logger (l : level) (m : list piece) : M unit :=
  fun w =>
    (Ok tt, mkState (net w) (headers w) (handlers w)
                    (log w ++ [mkLog l m]) (exchanges w)).

(** [requests.get(url, headers=self.headers)] and its siblings: the
    header dictionary is read when the call is made, the exchange is
    recorded, and the connection moves on. *)
Definition requests_send (m : verb) (u : string) (body : option pyval)
  : M response :=
  fun w =>
    let rq := mkRequest m u (headers w) body in
    let (o, c) := transmit (net w) rq in
    (o, mkState c (headers w) (handlers w) (log w)
                (exchanges w ++ [(rq, o)])).

(** [response.json()]. *)
Definition response_json (r : response) : M pyval :=
  match json r with
  | Some v => ret v
  | None => raise JSONDecodeError
  end.

(** [self.headers[k] = v]. *)
Definition set_header (k v : string) : M unit :=
  fun w =>
    (Ok tt, mkState (net w) (<[k := v]> (headers w)) (handlers w)
                    (log w) (exchanges w)).

(** The requests of a state, oldest first. *)
Definition sent (w : state) : list request := map fst (exchanges w).

End Primitives.

(** The records a handler lets through: [setup_logging] installs a
    console handler at [min_log_level] and one file handler per level
    from [min_log_level] up. *)
Definition emitted (min_log_level : level) (l : list log_record)
  : list log_record :=
  List.filter (fun r => Z.leb (levelno min_log_level) (levelno (lvl r))) l.

(** ** class Foxpass *)

Module Foxpass.
Section Methods.
Context `{Network}.

Definition BASE_URL : string := "https://api.foxpass.com/v1/".

(** [__init__]: the header dictionary of a fresh client. *)
Definition init_headers (api_key : string) : gmap string string :=
  <["Authorization" := "Token " +:+ api_key]>
    (<["accept" := "application/json"]> ∅).

Definition __init__ (api_key : string) : M unit :=
  fun w =>
    (Ok tt, mkState (net w) (init_headers api_key) (handlers w)
                    (log w) (exchanges w)).

(** How one turn of the [while url:] loop of [all] ends. *)
Inductive turn : Type :=
| Break (all_data : list pyval)
| Again (url : pyval) (all_data : list pyval).

(** [requests.get(url, ...)] on the loop variable.  After the first turn
    [url] is whatever [data.get('next')] gave; for a value that is not a
    str, requests formats it with [str()], finds no scheme in it and
    raises before anything is sent. *)
Definition requests_get (url : pyval) : M response :=
  match url with
  | PStr u => requests_send GET u None
  | _ => raise MissingSchema
  end.

(** The body of the loop, lines 45-57. *)
Definition all_turn (url : pyval) (all_data : list pyval) : M turn :=
  response <- requests_get url ;;
  if negb (Z.eqb (status_code response) 200) then ret (Break all_data)
  else
    data <- response_json response ;;
    st <- lift (py_get data "status" PNone) ;;
    if py_eq_str st "ok" then
      d <- lift (py_get data "data" (PList [])) ;;
      items <- lift (py_iter d) ;;
      next <- lift (py_get data "next" PNone) ;;
      ret (Again next (all_data ++ items))
    else
      st' <- lift (py_get data "status" PNone) ;;
      logger ERROR [Lit "Request failed with status code ";
                    FmtInt (status_code response); Lit ": "; FmtVal st'] ;;
      ret (Again url all_data).

(** [while url: ...; return all_data].  The loop need not end, so it is
    run with fuel: [None] says the fuel ran out with [url] still truthy. *)
Fixpoint all_loop (fuel : nat) (url : pyval) (all_data : list pyval)
  (w : state) : option (outcome (list pyval) * state) :=
  if truthy url then
    match fuel with
    | O => None
    | S fuel' =>
      match all_turn url all_data w with
      | (Raise e, w') => Some (Raise e, w')
      | (Ok (Break d), w') => Some (Ok d, w')
      | (Ok (Again u d), w') => all_loop fuel' u d w'
      end
    end
  else Some (Ok all_data, w).

Definition all (fuel : nat) (endpoint : string) (w : state)
  : option (outcome (list pyval) * state) :=
  all_loop fuel (PStr (BASE_URL +:+ endpoint)) [] w.

Definition get (endpoint item : string) : M pyval :=
  let url := BASE_URL +:+ endpoint +:+ item in
  response <- requests_send GET url None ;;
  if negb (Z.eqb (status_code response) 200) then
    logger DEBUG [Lit "Request failed with status code ";
                  FmtInt (status_code response); Lit ": ";
                  Lit (text response)] ;;
    ret (PDict [])
  else
    data <- response_json response ;;
    st <- lift (py_get data "status" PNone) ;;
    if py_eq_str st "ok" then lift (py_get data "data" PNone)
    else ret PNone.

Definition create (endpoint : string) (data : pyval) : M pyval :=
  set_header "Content-Type" "application/json" ;;
  let url := BASE_URL +:+ endpoint in
  response <- requests_send POST url (Some data) ;;
  if negb (Z.eqb (status_code response) 200) then
    logger DEBUG [Lit "Request failed with status code ";
                  FmtInt (status_code response); Lit ": ";
                  Lit (text response)] ;;
    ret (PDict [])
  else response_json response.

Definition update (endpoint item : string) (data : pyval) : M pyval :=
  let url := BASE_URL +:+ endpoint +:+ item in
  response <- requests_send PUT url (Some data) ;;
  if negb (Z.eqb (status_code response) 200) then
    logger DEBUG [Lit "Request failed with status code ";
                  FmtInt (status_code response); Lit ": ";
                  Lit (text response)] ;;
    ret PNone
  else response_json response.

Definition delete (endpoint item : string) : M pyval :=
  let url := BASE_URL +:+ endpoint +:+ item +:+ "/" in
  response <- requests_send DELETE url None ;;
  if negb (Z.eqb (status_code response) 200) then
    logger DEBUG [Lit "Request failed with status code ";
                  FmtInt (status_code response); Lit ": ";
                  Lit (text response)] ;;
    ret PNone
  else response_json response.

End Methods.
End Foxpass.

(** ** class MacFoxpass(Foxpass) *)

Module MacFoxpass.
Section Methods.
Context `{Network}.

Definition ENDPOINT : string := "mac_entries/".

Definition __init__ (api_key : string) : M unit := Foxpass.__init__ api_key.

Definition add_mac_group (group_name : string) : M pyval :=
  Foxpass.create ENDPOINT (PDict [("name", PStr group_name)]).

Definition delete_mac_group (group_name : string) : M pyval :=
  Foxpass.delete ENDPOINT group_name.

Definition get_mac_group (group_name : string) : M pyval :=
  Foxpass.get ENDPOINT group_name.

Definition list_mac_groups (fuel : nat) (w : state)
  : option (outcome (list pyval) * state) :=
  Foxpass.all fuel ENDPOINT w.

Definition list_mac_entries (fuel : nat) (group_name : string) (w : state)
  : option (outcome (list pyval) * state) :=
  Foxpass.all fuel (ENDPOINT +:+ group_name +:+ "/prefixes/") w.

Definition add_mac_entry (group_name mac_address : string) : M pyval :=
  Foxpass.update ENDPOINT (group_name +:+ "/prefixes/")
                 (PDict [("prefix", PStr mac_address)]).

Definition delete_mac_entry (group_name mac_address : string) : M pyval :=
  Foxpass.delete (ENDPOINT +:+ group_name +:+ "/") mac_address ;;
  ret PNone.

Definition is_mac_in_group (group_name mac_address : string) : M bool :=
  let url := Foxpass.BASE_URL +:+ ENDPOINT +:+ group_name +:+ "/prefixes/"
             +:+ mac_address +:+ "/" in
  response <- requests_send GET url None ;;
  if negb (Z.eqb (status_code response) 200) then
    logger ERROR [Lit "Request failed with status code ";
                  FmtInt (status_code response); Lit ": ";
                  Lit (text response)] ;;
    ret false
  else
    data <- response_json response ;;
    st <- lift (py_get data "status" PNone) ;;
    if py_eq_str st "ok" then ret true else ret false.

End Methods.
End MacFoxpass.

(** ** Strings and paths used by the driver *)

(** [str.isspace] on one character.  A [string] here stands for a Python
    str whose code points are below 256. *)
Definition isspace (c : ascii) : bool :=
  let n := N_of_ascii c in
  (N.leb 9 n && N.leb n 13) || (N.leb 28 n && N.leb n 32)
  || N.eqb n 133 || N.eqb n 160.

Fixpoint lstrip (s : string) : string :=
  match s with
  | EmptyString => EmptyString
  | String c s' => if isspace c then lstrip s' else s
  end.

Definition rstrip (s : string) : string := String.rev (lstrip (String.rev s)).

(** [s.strip()]. *)
Definition strip (s : string) : string := rstrip (lstrip s).

Fixpoint endswith_slash (s : string) : bool :=
  match s with
  | EmptyString => false
  | String c EmptyString => Ascii.eqb c "/"
  | String _ s' => endswith_slash s'
  end.

(** [os.path.join(a, b)] of posixpath. *)
Definition os_path_join (a b : string) : string :=
  match b with
  | String "/" _ => b
  | _ => if String.eqb a "" || endswith_slash a then a +:+ b
         else a +:+ "/" +:+ b
  end.

(** ** utils.setup_logging and the command line *)

(** What the process finds around it: the variable holding the API key,
    the [logs] directory ([None]: absent, [Some b]: present and writable
    or not), and the text files, each as the lines iteration yields. *)
Record environ : Type := mkEnviron {
  FOXPASS_API_KEY : option string;
  logs_dir : option bool;
  open_ : string -> option (list string)
}.

(** The namespace [parser.parse_args()] returns. *)
Record Args : Type := mkArgs {
  verbose : bool;
  mac_group : option string;
  mac_address_file : option string
}.

(** The status the interpreter exits with. *)
Definition exit_status (o : outcome unit) : Z :=
  match o with
  | Ok _ => 0
  | Raise (SystemExit c) => c
  | Raise _ => 1
  end.

Section Driver.
Context `{Network}.

(** [config.INPUT_DIR]; [config] is not among the sources. *)
Variable INPUT_DIR : string.

(** [mac.MacAddress]; [mac] is not among the sources.  [None] stands for
    the constructor raising [ValueError], [Some m] for an object whose
    [mac_address] attribute is [m]. *)
Variable MacAddress : string -> option string.

(** [setup_logging]: a missing [logs] directory is created; one that
    cannot be written is an error; then handlers are installed at
    [min_log_level] and the root logger reports it. *)
Definition setup_logging (env : environ) (min_log_level : level) : M unit :=
  match logs_dir env with
  | Some false => raise PermissionError
  | _ =>
    (fun w => (Ok tt, mkState (net w) (headers w) (Some min_log_level)
                              (log w) (exchanges w))) ;;
    logger INFO [Lit "Logging is set up. Minimum log level: ";
                 Lit (getLevelName min_log_level)]
  end.

(** [[line.strip() for line in file if line.strip()]]. *)
Definition read_addresses (lines : list string) : list string :=
  map strip (List.filter (fun line => negb (String.eqb (strip line) "")) lines).

(** The [for mac_address in mac_addresses:] loop, lines 311-319. *)
Fixpoint batch (group file : string) (mac_addresses : list string) : M unit :=
  match mac_addresses with
  | [] => ret tt
  | mac_address :: rest =>
    match MacAddress mac_address with
    | None =>
      logger WARNING [Lit "MAC Address "; Lit mac_address;
                      Lit " provided in "; Lit file;
                      Lit " is not valid. Skipping."] ;;
      batch group file rest
    | Some good_mac =>
      add_mac <- MacFoxpass.add_mac_entry group good_mac ;;
      batch group file rest
    end
  end.

(** [if args.mac_group:] and [if not args.mac_address_file:] on an
    option that is a str or [None]. *)
Definition given (o : option string) : option string :=
  match o with
  | Some s => if String.eqb s "" then None else Some s
  | None => None
  end.

(** Lines 296-319, once the client exists. *)
Definition sync (args : Args) (env : environ) : M unit :=
  match given (mac_group args) with
  | None => ret tt
  | Some group =>
    match given (mac_address_file args) with
    | None =>
      logger CRITICAL [Lit "Please specify the filename containing the MAC addresses to add with --mac-address-file [filename.txt]."] ;;
      raise (SystemExit 1)
    | Some file =>
      mac_group <- MacFoxpass.get_mac_group group ;;
      if negb (truthy mac_group) then
        logger CRITICAL [Lit "Group <"; Lit group;
                         Lit "> does not exist. Please create it first."] ;;
        raise (SystemExit 1)
      else
        let file_path := os_path_join INPUT_DIR file in
        match open_ env file_path with
        | None => raise (OSError file_path)
        | Some lines => batch group file (read_addresses lines)
        end
    end
  end.

(** Lines 282-294: logging, the API key, the client object. *)
Definition startup (args : Args) (env : environ) : M unit :=
  setup_logging env (if verbose args then DEBUG else INFO) ;;
  match FOXPASS_API_KEY env with
  | None =>
    logger CRITICAL [Lit "Please set the FOXPASS_API_KEY environment variable."] ;;
    raise (SystemExit 1)
  | Some foxpass_api_key => MacFoxpass.__init__ foxpass_api_key
  end.

(** The [if __name__ == '__main__':] block. *)
Definition main (args : Args) (env : environ) : M unit :=
  startup args env ;;
  sync args env.

End Driver.

(** ** Concrete surroundings for the examples *)

(** A remote side that answers from a script, one entry per request, and
    refuses the connection once the script is used up. *)
Definition scripted : Network := {|
  conn := list (outcome response);
  transmit := fun c _ =>
    match c with
    | [] => (Raise (RequestException "ConnectionError"), [])
    | o :: c' => (o, c')
    end
|}.

(** A remote side that gives the same answer to every request. *)
Definition constant (o : outcome response) : Network := {|
  conn := unit;
  transmit := fun c _ => (o, c)
|}.

Definition is_hex (c : ascii) : bool :=
  let n := N_of_ascii c in
  (N.leb 48 n && N.leb n 57) || (N.leb 65 n && N.leb n 70)
  || (N.leb 97 n && N.leb n 102).

Definition lower (c : ascii) : ascii :=
  let n := N_of_ascii c in
  if N.leb 65 n && N.leb n 90 then ascii_of_N (n + 32) else c.

Fixpoint octets (n : nat) (sep : option ascii) (s : string) : option string :=
  match n, s with
  | S n', String a (String b rest) =>
    if is_hex a && is_hex b then
      let ab := String (lower a) (String (lower b) EmptyString) in
      match n', rest, sep with
      | O, EmptyString, _ => Some ab
      | O, _, _ => None
      | _, _, None => option_map (fun t => ab +:+ ":" +:+ t) (octets n' sep rest)
      | _, String c rest', Some c' =>
        if Ascii.eqb c c'
        then option_map (fun t => ab +:+ ":" +:+ t) (octets n' sep rest')
        else None
      | _, EmptyString, Some _ => None
      end
    else None
  | _, _ => None
  end.

(** Modelled from the spec: [mac.MacAddress], which is not among the
    sources.  Six octets of two hex digits, separated throughout by
    colons, by dashes or by nothing, in either case; the normalized form
    is lower case with colons.  Only the examples use it. *)
Definition MacAddress_spec (s : string) : option string :=
  match octets 6 (Some ":"%char) s with
  | Some m => Some m
  | None =>
    match octets 6 (Some "-"%char) s with
    | Some m => Some m
    | None => octets 6 None s
    end
  end.

(** A state before anything has happened, on a given connection. *)
Definition fresh `{Network} (c : conn) : state := mkState c ∅ None [] [].

(** A client built with [api_key], on a given connection. *)
Definition client `{Network} (api_key : string) (c : conn) : state :=
  mkState c (Foxpass.init_headers api_key) None [] [].

Definition envelope (status : string) (data : pyval) (next : option string)
  : pyval :=
  PDict ([("status", PStr status); ("data", data)]
         ++ match next with Some u => [("next", PStr u)] | None => [] end).

Definition reply (code : Z) (body : pyval) : outcome response :=
  Ok (mkResponse code "" (Some body)).

(** A paginated listing in three pages. *)
Definition page1 : pyval :=
  envelope "ok" (PList [PStr "aa:bb:cc:00:00:01"; PStr "aa:bb:cc:00:00:02"])
           (Some "https://api.foxpass.com/v1/mac_entries/?page=2").

Definition page2 : pyval :=
  envelope "ok" (PList [PStr "aa:bb:cc:00:00:03"])
           (Some "https://api.foxpass.com/v1/mac_entries/?page=3").

Definition page3 : pyval :=
  envelope "ok" (PList [PStr "aa:bb:cc:00:00:04"]) None.

(** A command line and surroundings for the examples: group [office],
    file [macs.txt], which every path resolves to and which holds
    [lines]. *)
Definition office_args (verbose : bool) : Args :=
  mkArgs verbose (Some "office") (Some "macs.txt").

Definition office_env (lines : list string) : environ :=
  mkEnviron (Some "key") (Some true) (fun _ => Some lines).

(** The envelope of an existing group. *)
Definition office_group : pyval :=
  envelope "ok" (PDict [("name", PStr "office")]) None.

(** ** Vocabulary of the statements *)

(** A page as the service describes it: the [data] array and the [next]
    field, absent or a string. *)
Record page : Type := mkPage {
  page_data : list pyval;
  page_next : option string
}.

(** The response is HTTP 200 and its body is an envelope with status
    ["ok"] holding this page. *)
Definition shows (r : response) (p : page) : Prop :=
  status_code r = 200 /\
  exists kv, json r = Some (PDict kv) /\
    dict_get kv "status" = Some (PStr "ok") /\
    dict_get kv "data" = Some (PList (page_data p)) /\
    dict_get kv "next" = option_map PStr (page_next p).

(** [next] is absent or empty. *)
Definition last_page (p : page) : Prop :=
  page_next p = None \/ page_next p = Some "".

(** The response is HTTP 200 and its body is an envelope whose status is
    not ["ok"]. *)
Definition refuses (r : response) : Prop :=
  status_code r = 200 /\
  exists kv, json r = Some (PDict kv) /\
    dict_get kv "status" <> Some (PStr "ok").

(** The exchange that ends a run of the loop of [all] normally: a
    status other than 200, or an accepted page whose [next] is falsy. *)
Definition stops (e : request * outcome response) : Prop :=
  match snd e with
  | Ok r =>
    status_code r <> 200 \/
    exists kv, json r = Some (PDict kv) /\
      dict_get kv "status" = Some (PStr "ok") /\
      truthy (match dict_get kv "next" with Some v => v | None => PNone end)
      = false
  | Raise _ => False
  end.

Section Pagination.
Context `{Network}.
Variable hs : gmap string string.

(** [follows c u ps tr c' u']: starting on connection [c] at URL [u],
    GET requests with headers [hs] are answered by the pages [ps] in
    turn, each naming a non-empty [next] that the following request goes
    to; [tr] are the exchanges, and the run is then on connection [c']
    about to request [u']. *)
Inductive follows
  : conn -> string -> list page -> list (request * outcome response)
    -> conn -> string -> Prop :=
| follows_nil c u : follows c u [] [] c u
| follows_cons c u r c1 p u1 ps tr c' u' :
    transmit c (mkRequest GET u hs None) = (Ok r, c1) ->
    shows r p ->
    page_next p = Some u1 ->
    u1 <> "" ->
    follows c1 u1 ps tr c' u' ->
    follows c u (p :: ps) ((mkRequest GET u hs None, Ok r) :: tr) c' u'.

End Pagination.

(** The service answers every request, and a 200 always carries JSON:
    no call of the client raises. *)
Definition answers `{Network} : Prop :=
  forall c rq, exists r c',
    transmit c rq = (Ok r, c') /\ (status_code r = 200 -> json r <> None).

(** The request [add_mac_entry] makes. *)
Definition put_prefix (hs : gmap string string) (group mac : string)
  : request :=
  mkRequest PUT
    ("https://api.foxpass.com/v1/" +:+ "mac_entries/" +:+ group +:+ "/prefixes/")
    hs (Some (PDict [("prefix", PStr mac)])).

(** The warning of the driver for a line that is no MAC address. *)
Definition skipped (file mac_address : string) : log_record :=
  mkLog WARNING [Lit "MAC Address "; Lit mac_address; Lit " provided in ";
                 Lit file; Lit " is not valid. Skipping."].

(** A computation that leaves [self.headers] as it found it. *)
Definition keeps_headers `{Network} {A} (c : M A) : Prop :=
  forall w, headers (snd (c w)) = headers w.

(** The URL a page sends the loop to: its [next], or nothing. *)
Definition next_of (p : page) : string :=
  match page_next p with
  | Some u => u
  | None => ""
  end.

(** The record [all] logs for a 200 whose envelope is not ["ok"]. *)
Definition refused_record (r : response) (kv : list (string * pyval))
  : log_record :=
  mkLog ERROR [Lit "Request failed with status code ";
               FmtInt (status_code r); Lit ": ";
               FmtVal (match dict_get kv "status" with
                       | Some v => v
                       | None => PNone
                       end)].

(** The record the verbs log for a status other than 200. *)
Definition failure_record (r : response) : log_record :=
  mkLog DEBUG [Lit "Request failed with status code ";
               FmtInt (status_code r); Lit ": "; Lit (text r)].

(** What [update] logs for an answer. *)
Definition update_log (r : response) : list log_record :=
  if Z.eqb (status_code r) 200 then [] else [failure_record r].

(** The lines [MacAddress] accepts, normalized, and the lines it refuses. *)
Definition accepted (MacAddress : string -> option string)
  (mac_addresses : list string) : list string :=
  omap MacAddress mac_addresses.

Definition refused (MacAddress : string -> option string)
  (mac_addresses : list string) : list string :=
  List.filter (fun m => match MacAddress m with None => true | Some _ => false end)
              mac_addresses.

(** A file of four lines: two addresses, one line that is no address,
    one blank line. *)
Definition four_lines : list string :=
  ["aa:bb:cc:dd:ee:ff" +:+ String "010" "";
   "not-a-mac" +:+ String "010" "";
   " " +:+ String "010" "";
   "11-22-33-44-55-66" +:+ String "010" ""].

(** ** The handlers utils.setup_logging installs *)

(** A handler: where it writes, its level, and the level its filter
    demands when it has one ([record.levelno == lv]). *)
Record handler : Type := mkHandler {
  h_target : string;
  h_level : level;
  h_only : option level
}.

(** The [log_levels] dict, in its order. *)
Definition log_levels : list level := [DEBUG; INFO; WARNING; ERROR; CRITICAL].

Fixpoint str_lower (s : string) : string :=
  match s with
  | EmptyString => EmptyString
  | String c s' => String (lower c) (str_lower s')
  end.

(** [os.path.join(logs_dir, f"{level_name.lower()}.log")]. *)
Definition level_file (l : level) : string :=
  os_path_join "logs" (str_lower (getLevelName l) +:+ ".log").

(** Lines 37-52 of [utils.py]: one file handler per level at or above
    [min_log_level], each with its level and a filter for exactly that
    level, then the console handler at [min_log_level]. *)
Definition installed (min_log_level : level) : list handler :=
  map (fun l => mkHandler (level_file l) l (Some l))
      (List.filter (fun l => Z.leb (levelno min_log_level) (levelno l))
                   log_levels)
  ++ [mkHandler "console" min_log_level None].

(** Whether a handler writes a record: the record is at or above the
    level of the handler and passes its filter. *)
Definition handles (h : handler) (r : log_record) : bool :=
  Z.leb (levelno (h_level h)) (levelno (lvl r))
  && match h_only h with
     | Some l => Z.eqb (levelno (lvl r)) (levelno l)
     | None => true
     end.

(** The values [list.extend] cannot iterate over. *)
Definition not_iterable (v : pyval) : Prop :=
  match v with
  | PNone | PBool _ | PInt _ | PFloat _ => True
  | _ => False
  end.

(** The URL [is_mac_in_group] asks and the URL [delete_mac_entry]
    deletes. *)
Definition prefix_url (group mac : string) : string :=
  "https://api.foxpass.com/v1/" +:+ "mac_entries/" +:+ group +:+ "/prefixes/"
  +:+ mac +:+ "/".

Definition entry_url (group mac : string) : string :=
  "https://api.foxpass.com/v1/" +:+ "mac_entries/" +:+ group +:+ "/"
  +:+ mac +:+ "/".

(** The state after one exchange that logged [l]. *)
Definition after `{Network} (w : state) (c : conn) (rq : request)
  (o : outcome response) (l : list log_record) : state :=
  mkState c (headers w) (handlers w) (log w ++ l) (exchanges w ++ [(rq, o)]).

Example MacAddress_spec_colon :
  MacAddress_spec "AA:BB:CC:DD:EE:FF" = Some "aa:bb:cc:dd:ee:ff".
Proof. reflexivity. Qed.

Example MacAddress_spec_dash :
  MacAddress_spec "11-22-33-44-55-66" = Some "11:22:33:44:55:66".
Proof. reflexivity. Qed.

Example MacAddress_spec_bare :
  MacAddress_spec "aabbccddeeff" = Some "aa:bb:cc:dd:ee:ff".
Proof. reflexivity. Qed.

Example MacAddress_spec_bad : MacAddress_spec "not-a-mac" = None.
Proof. reflexivity. Qed.

Example strip_line : strip ("  aa:bb " +:+ String "010" "") = "aa:bb".
Proof. reflexivity. Qed.

Example strip_blank : strip (" " +:+ String "010" "") = "".
Proof. reflexivity. Qed.

(** ** The monad, step by step *)

Section Steps.
Context `{Network}.

Lemma bind_ok {A B} (c : M A) (k : A -> M B) w a w' :
  c w = (Ok a, w') -> bind c k w = k a w'.
Proof. intros E. unfold bind. now rewrite E. Qed.

Lemma bind_raise {A B} (c : M A) (k : A -> M B) w e w' :
  c w = (Raise e, w') -> bind c k w = (Raise e, w').
Proof. intros E. unfold bind. now rewrite E. Qed.

Lemma requests_send_eq m u body w :
  requests_send m u body w =
  (fst (transmit (net w) (mkRequest m u (headers w) body)),
   mkState (snd (transmit (net w) (mkRequest m u (headers w) body)))
           (headers w) (handlers w) (log w)
           (exchanges w ++
            [(mkRequest m u (headers w) body,
              fst (transmit (net w) (mkRequest m u (headers w) body)))])).
Proof. unfold requests_send. now destruct (transmit _ _). Qed.

End Steps.

(** ** add_mac_entry *)

(** C1. For every group name and MAC address string, [add_mac_entry]
    makes exactly one exchange, a PUT to the base URL followed by
    [mac_entries/] and [<group>/prefixes/] whose JSON payload is
    [{"prefix": mac}], and when the status of the answer is 200 it returns
    the parsed JSON body. *)
Theorem add_mac_entry_one_put `{Network} (g m : string) (w : state) :
  exists o w',
    MacFoxpass.add_mac_entry g m w = (o, w') /\
    let rq := mkRequest PUT
                ("https://api.foxpass.com/v1/" +:+ "mac_entries/" +:+ g
                 +:+ "/prefixes/")
                (headers w) (Some (PDict [("prefix", PStr m)])) in
    exchanges w' = exchanges w ++ [(rq, fst (transmit (net w) rq))] /\
    forall r body,
      fst (transmit (net w) rq) = Ok r ->
      status_code r = 200 -> json r = Some body -> o = Ok body.
Proof.
  unfold MacFoxpass.add_mac_entry, Foxpass.update, MacFoxpass.ENDPOINT,
    Foxpass.BASE_URL.
  cbn zeta. unfold bind at 1. rewrite requests_send_eq.
  set (rq := mkRequest PUT _ _ _).
  destruct (transmit (net w) rq) as [[r|e] c] eqn:E; cbn [fst snd].
  - destruct (Z.eqb (status_code r) 200) eqn:S; cbn [negb].
    + unfold response_json. destruct (json r) as [body|] eqn:J.
      * eexists _, _. split; [reflexivity|]. cbn. split; [reflexivity|].
        intros r' body' [= <-] _ J'. congruence.
      * eexists _, _. split; [reflexivity|]. cbn. split; [reflexivity|].
        intros r' body' [= <-] _ J'. congruence.
    + eexists _, _. split; [reflexivity|]. cbn. split; [reflexivity|].
      intros r' body' [= <-] S'. rewrite S' in S. discriminate.
  - eexists _, _. split; [reflexivity|]. cbn. split; [reflexivity|].
    intros r' body' [=].
Qed.

Lemma add_mac_entry_one_put_witness :
  fst (@MacFoxpass.add_mac_entry scripted "office" "aa:bb:cc:dd:ee:ff"
         (@client scripted "key" [reply 200 (envelope "ok" (PDict []) None)]))
  = Ok (envelope "ok" (PDict []) None).
Proof.
  destruct (@add_mac_entry_one_put scripted "office" "aa:bb:cc:dd:ee:ff"
              (@client scripted "key" [reply 200 (envelope "ok" (PDict []) None)]))
    as (o & w' & E & _ & Hret).
  rewrite E. cbn [fst].
  apply (Hret (mkResponse 200 "" (Some (envelope "ok" (PDict []) None))));
    reflexivity.
Defined.

(** ** The URLs of the verbs *)

Lemma append_assoc (a b c : string) : (a +:+ b) +:+ c = a +:+ b +:+ c.
Proof.
  induction a as [|x a IH]; [reflexivity|].
  change (String x ((a +:+ b) +:+ c) = String x (a +:+ b +:+ c)).
  now rewrite IH.
Qed.

Lemma length_append (a b : string) :
  String.length (a +:+ b) = (String.length a + String.length b)%nat.
Proof.
  induction a as [|x a IH]; [reflexivity|].
  change (S (String.length (a +:+ b)) = S (String.length a + String.length b)).
  now rewrite IH.
Qed.

Lemma append_slash_neq (a : string) : a +:+ "/" <> a.
Proof.
  intros E. apply (f_equal String.length) in E.
  rewrite length_append in E. cbn in E. lia.
Qed.

(** C7. For every endpoint and item, [delete] requests the base URL
    followed by the endpoint, the item and a slash, while [get] and
    [update] request the base URL followed by the endpoint and the item,
    with nothing appended: the URL of [delete] is the URL of the other two
    with one more slash. *)
Theorem delete_appends_slash `{Network}
  (endpoint item : string) (data : pyval) (w : state) :
  let base := "https://api.foxpass.com/v1/" in
  sent (snd (Foxpass.delete endpoint item w)) =
    sent w ++ [mkRequest DELETE (base +:+ endpoint +:+ item +:+ "/")
                         (headers w) None] /\
  sent (snd (Foxpass.get endpoint item w)) =
    sent w ++ [mkRequest GET (base +:+ endpoint +:+ item) (headers w) None] /\
  sent (snd (Foxpass.update endpoint item data w)) =
    sent w ++ [mkRequest PUT (base +:+ endpoint +:+ item) (headers w)
                         (Some data)] /\
  base +:+ endpoint +:+ item +:+ "/" = (base +:+ endpoint +:+ item) +:+ "/" /\
  base +:+ endpoint +:+ item +:+ "/" <> base +:+ endpoint +:+ item.
Proof.
  cbn zeta. repeat split.
  - unfold Foxpass.delete, Foxpass.BASE_URL. cbn zeta. unfold bind at 1.
    rewrite requests_send_eq.
    destruct (transmit _ _) as [[r|e] c]; cbn [fst snd].
    + destruct (negb _); cbn; unfold response_json, sent;
        try destruct (json r); cbn; now rewrite map_app.
    + unfold sent. cbn. now rewrite map_app.
  - unfold Foxpass.get, Foxpass.BASE_URL. cbn zeta. unfold bind at 1.
    rewrite requests_send_eq.
    destruct (transmit _ _) as [[r|e] c]; cbn [fst snd].
    + destruct (negb _); cbn; unfold response_json, sent.
      * now rewrite map_app.
      * destruct (json r) as [d|]; cbn; [|now rewrite map_app].
        destruct d; cbn; try now rewrite map_app.
        destruct (py_eq_str _ _); cbn; now rewrite map_app.
    + unfold sent. cbn. now rewrite map_app.
  - unfold Foxpass.update, Foxpass.BASE_URL. cbn zeta. unfold bind at 1.
    rewrite requests_send_eq.
    destruct (transmit _ _) as [[r|e] c]; cbn [fst snd].
    + destruct (negb _); cbn; unfold response_json, sent;
        try destruct (json r); cbn; now rewrite map_app.
    + unfold sent. cbn. now rewrite map_app.
  - rewrite <- !append_assoc. reflexivity.
  - rewrite <- (append_assoc endpoint), <- (append_assoc _ _ "/").
    apply append_slash_neq.
Qed.

(** ** The header dictionary *)

Section Frame.
Context `{Network}.

Lemma keeps_ret {A} (a : A) : keeps_headers (ret a).
Proof. now intros w. Qed.

Lemma keeps_raise {A} e : keeps_headers (raise (A := A) e).
Proof. now intros w. Qed.

Lemma keeps_lift {A} (o : outcome A) : keeps_headers (lift o).
Proof. now intros w. Qed.

Lemma keeps_logger l m : keeps_headers (logger l m).
Proof. now intros w. Qed.

Lemma keeps_requests_send m u body : keeps_headers (requests_send m u body).
Proof. intros w. now rewrite requests_send_eq. Qed.

Lemma keeps_response_json r : keeps_headers (response_json r).
Proof. unfold response_json. destruct (json r); now intros w. Qed.

Lemma keeps_bind {A B} (c : M A) (k : A -> M B) :
  keeps_headers c -> (forall a, keeps_headers (k a)) -> keeps_headers (bind c k).
Proof.
  intros Hc Hk w. unfold bind. specialize (Hc w).
  destruct (c w) as [[a|e] w1]; cbn [snd] in *; [|exact Hc].
  now rewrite Hk.
Qed.

End Frame.

Create HintDb frame.
#[export] Hint Resolve keeps_ret keeps_raise keeps_lift keeps_logger
  keeps_requests_send keeps_response_json : frame.

Ltac frame :=
  repeat first
    [ apply keeps_bind; [|intros ?]
    | solve [auto with frame]
    | match goal with
      | |- keeps_headers (if ?b then _ else _) => destruct b
      | |- keeps_headers (match ?x with _ => _ end) => destruct x
      end ].

Section FrameOfMethods.
Context `{Network}.

Lemma keeps_get endpoint item : keeps_headers (Foxpass.get endpoint item).
Proof. unfold Foxpass.get. cbn zeta. frame. Qed.

Lemma keeps_update endpoint item data :
  keeps_headers (Foxpass.update endpoint item data).
Proof. unfold Foxpass.update. cbn zeta. frame. Qed.

Lemma keeps_delete endpoint item : keeps_headers (Foxpass.delete endpoint item).
Proof. unfold Foxpass.delete. cbn zeta. frame. Qed.

Lemma keeps_all_turn u acc : keeps_headers (Foxpass.all_turn u acc).
Proof. unfold Foxpass.all_turn, Foxpass.requests_get. frame. Qed.

Lemma all_loop_headers fuel : forall u acc w o w',
  Foxpass.all_loop fuel u acc w = Some (o, w') -> headers w' = headers w.
Proof.
  induction fuel as [|fuel IH]; intros u acc w o w'; cbn [Foxpass.all_loop];
    destruct (truthy u); try congruence.
  pose proof (keeps_all_turn u acc w) as K.
  destruct (Foxpass.all_turn u acc w) as [[[d|u1 d]|e] w1]; cbn [snd] in K.
  - intros [= <- <-]. exact K.
  - intros E. apply IH in E. congruence.
  - intros [= <- <-]. exact K.
Qed.

Lemma create_headers endpoint data w :
  headers (snd (Foxpass.create endpoint data w))
  = <["Content-Type" := "application/json"]> (headers w).
Proof.
  unfold Foxpass.create. unfold bind at 1. cbn [set_header].
  match goal with
  | |- headers (snd (?k ?w1)) = _ =>
      assert (K : keeps_headers k) by (cbn zeta; frame); now rewrite K
  end.
Qed.

End FrameOfMethods.

(** C9, as the code has it. After construction the header dictionary is
    changed by [create] alone, which sets [Content-Type] to
    [application/json]: doing so twice is the same as once and no other
    field changes.  [update], [get], [delete] and [all] leave the
    dictionary as it was. *)
Theorem headers_changed_by_create_only `{Network} :
  (forall endpoint data w,
     headers (snd (Foxpass.create endpoint data w))
     = <["Content-Type" := "application/json"]> (headers w)) /\
  (forall endpoint data endpoint' data' w,
     headers (snd (Foxpass.create endpoint' data'
                     (snd (Foxpass.create endpoint data w))))
     = headers (snd (Foxpass.create endpoint data w))) /\
  (forall endpoint data w k,
     k <> "Content-Type" ->
     headers (snd (Foxpass.create endpoint data w)) !! k = headers w !! k) /\
  (forall endpoint item data w,
     headers (snd (Foxpass.update endpoint item data w)) = headers w) /\
  (forall endpoint item w,
     headers (snd (Foxpass.get endpoint item w)) = headers w) /\
  (forall endpoint item w,
     headers (snd (Foxpass.delete endpoint item w)) = headers w) /\
  (forall fuel endpoint w o w',
     Foxpass.all fuel endpoint w = Some (o, w') -> headers w' = headers w).
Proof.
  repeat split.
  - apply create_headers.
  - intros. rewrite !create_headers. apply insert_insert_eq.
  - intros endpoint data w k Hk. rewrite create_headers.
    now apply lookup_insert_ne.
  - intros. apply keeps_update.
  - intros. apply keeps_get.
  - intros. apply keeps_delete.
  - intros fuel endpoint w o w'. unfold Foxpass.all. apply all_loop_headers.
Qed.

Lemma headers_changed_by_create_only_witness :
  headers (snd (@Foxpass.create scripted "mac_entries/"
                  (PDict [("name", PStr "office")])
                  (@client scripted "key" []))) !! "accept"
  = Some "application/json".
Proof.
  destruct (@headers_changed_by_create_only scripted) as (_ & _ & Hk & _).
  rewrite Hk by discriminate. reflexivity.
Defined.

(** C9 as stated fails: [update] does not add [Content-Type]; on a fresh
    client the field is still absent after [update], and present after
    [create]. *)
Lemma update_leaves_content_type_unset :
  headers (snd (@Foxpass.update scripted "mac_entries/" "office/prefixes/"
                  (PDict [("prefix", PStr "aa:bb:cc:dd:ee:ff")])
                  (@client scripted "key"
                     [reply 200 (envelope "ok" (PDict []) None)])))
    !! "Content-Type" = None /\
  headers (snd (@Foxpass.create scripted "mac_entries/"
                  (PDict [("name", PStr "office")])
                  (@client scripted "key"
                     [reply 200 (envelope "ok" (PDict []) None)])))
    !! "Content-Type" = Some "application/json".
Proof. split; vm_compute; reflexivity. Qed.

(** ** get *)

(** C5. What [get] returns, by the answer it receives: an empty dict
    for a status other than 200, the [data] field of the envelope for a 200
    whose envelope says ["ok"], and [None] (not an empty dict) for a 200
    whose envelope does not say ["ok"]. *)
Theorem get_results `{Network} (endpoint item : string) (w : state)
  (r : response) (c : conn) :
  transmit (net w)
    (mkRequest GET ("https://api.foxpass.com/v1/" +:+ endpoint +:+ item)
               (headers w) None) = (Ok r, c) ->
  (status_code r <> 200 ->
   fst (Foxpass.get endpoint item w) = Ok (PDict [])) /\
  (refuses r -> fst (Foxpass.get endpoint item w) = Ok PNone) /\
  (forall kv data,
     status_code r = 200 -> json r = Some (PDict kv) ->
     dict_get kv "status" = Some (PStr "ok") ->
     dict_get kv "data" = Some data ->
     fst (Foxpass.get endpoint item w) = Ok data).
Proof.
  intros E.
  assert (G : forall k : response -> M pyval,
             bind (requests_send GET
                     ("https://api.foxpass.com/v1/" +:+ endpoint +:+ item) None)
                  k w
             = k r (mkState c (headers w) (handlers w) (log w)
                      (exchanges w ++
                       [(mkRequest GET
                           ("https://api.foxpass.com/v1/" +:+ endpoint +:+ item)
                           (headers w) None, Ok r)]))).
  { intros k. unfold bind. now rewrite requests_send_eq, E. }
  unfold Foxpass.get, Foxpass.BASE_URL. cbn zeta. rewrite G. clear G.
  repeat split.
  - intros S. apply Z.eqb_neq in S. rewrite S. reflexivity.
  - intros [S (kv & J & K)]. rewrite S. cbn [negb Z.eqb].
    unfold bind at 1, response_json. rewrite J. cbn.
    destruct (dict_get kv "status") as [[]|]; try reflexivity.
    unfold py_eq_str. destruct (String.eqb_spec s "ok"); [|reflexivity].
    subst. congruence.
  - intros kv data S J K D. rewrite S. cbn [negb Z.eqb].
    unfold bind at 1, response_json. rewrite J. cbn. rewrite K. cbn.
    now rewrite D.
Qed.

Lemma get_results_witness :
  fst (@Foxpass.get scripted "mac_entries/" "office"
         (@client scripted "key"
            [reply 200 (PDict [("status", PStr "error")])]))
  = Ok PNone.
Proof.
  refine (proj1 (proj2 (@get_results scripted "mac_entries/" "office"
            (@client scripted "key"
               [reply 200 (PDict [("status", PStr "error")])])
            (mkResponse 200 "" (Some (PDict [("status", PStr "error")])))
            [] eq_refl)) _).
  split; [reflexivity|].
  exists [("status", PStr "error")]. split; [reflexivity|]. discriminate.
Defined.

(** ** The loop of all, one turn at a time *)

Section Turns.
Context `{Network}.

Lemma bind_send m u body {B} (k : response -> M B) w r c :
  transmit (net w) (mkRequest m u (headers w) body) = (Ok r, c) ->
  bind (requests_send m u body) k w
  = k r (mkState c (headers w) (handlers w) (log w)
           (exchanges w ++ [(mkRequest m u (headers w) body, Ok r)])).
Proof. intros E. unfold bind. now rewrite requests_send_eq, E. Qed.

Lemma all_turn_page u acc w r c p :
  transmit (net w) (mkRequest GET u (headers w) None) = (Ok r, c) ->
  shows r p ->
  Foxpass.all_turn (PStr u) acc w
  = (Ok (Foxpass.Again
           (match page_next p with Some u' => PStr u' | None => PNone end)
           (acc ++ page_data p)),
     mkState c (headers w) (handlers w) (log w)
       (exchanges w ++ [(mkRequest GET u (headers w) None, Ok r)])).
Proof.
  intros E (S & kv & J & Kst & Kd & Kn).
  unfold Foxpass.all_turn, Foxpass.requests_get.
  rewrite (bind_send _ _ _ _ _ _ _ E). rewrite S. cbn [negb Z.eqb].
  unfold response_json. rewrite J.
  cbn. rewrite Kst. cbn. rewrite Kd. cbn. rewrite Kn.
  now destruct (page_next p).
Qed.

Lemma all_turn_failed u acc w r c :
  transmit (net w) (mkRequest GET u (headers w) None) = (Ok r, c) ->
  status_code r <> 200 ->
  Foxpass.all_turn (PStr u) acc w
  = (Ok (Foxpass.Break acc),
     mkState c (headers w) (handlers w) (log w)
       (exchanges w ++ [(mkRequest GET u (headers w) None, Ok r)])).
Proof.
  intros E S. apply Z.eqb_neq in S.
  unfold Foxpass.all_turn, Foxpass.requests_get.
  rewrite (bind_send _ _ _ _ _ _ _ E). now rewrite S.
Qed.

Lemma all_turn_refused u acc w r c kv :
  transmit (net w) (mkRequest GET u (headers w) None) = (Ok r, c) ->
  status_code r = 200 ->
  json r = Some (PDict kv) ->
  dict_get kv "status" <> Some (PStr "ok") ->
  Foxpass.all_turn (PStr u) acc w
  = (Ok (Foxpass.Again (PStr u) acc),
     mkState c (headers w) (handlers w) (log w ++ [refused_record r kv])
       (exchanges w ++ [(mkRequest GET u (headers w) None, Ok r)])).
Proof.
  intros E S J K.
  unfold Foxpass.all_turn, Foxpass.requests_get.
  rewrite (bind_send _ _ _ _ _ _ _ E). rewrite S. cbn [negb Z.eqb].
  unfold response_json. rewrite J. cbn.
  assert (N : py_eq_str (match dict_get kv "status" with
                         | Some v => v | None => PNone end) "ok" = false).
  { destruct (dict_get kv "status") as [[]|]; try reflexivity.
    cbn. destruct (String.eqb_spec s "ok"); [subst; congruence|reflexivity]. }
  rewrite N. unfold refused_record. rewrite S. reflexivity.
Qed.

End Turns.

(** ** The loop of all over a run of pages *)

Section Runs.
Context `{Network}.

Lemma truthy_url u : u <> "" -> truthy (PStr u) = true.
Proof.
  intros N. cbn. destruct (String.eqb_spec u ""); [contradiction|reflexivity].
Qed.

Lemma all_loop_done fuel u acc w :
  truthy u = false -> Foxpass.all_loop fuel u acc w = Some (Ok acc, w).
Proof. intros T. destruct fuel; cbn; now rewrite T. Qed.

Lemma all_loop_follows hs c u ps tr c1 u1 :
  follows hs c u ps tr c1 u1 ->
  u <> "" ->
  u1 <> "" /\
  forall h l ex acc fuel,
    Foxpass.all_loop (length ps + fuel) (PStr u) acc (mkState c hs h l ex)
    = Foxpass.all_loop fuel (PStr u1)
        (acc ++ concat (map page_data ps)) (mkState c1 hs h l (ex ++ tr)).
Proof.
  induction 1 as [c u|c u r c1 p u1 ps tr c' u' E Sh Nx Ne F IH]; intros Nu.
  - split; [exact Nu|]. intros. cbn. now rewrite !app_nil_r.
  - destruct (IH Ne) as [Nu' IH']. split; [exact Nu'|].
    intros h l ex acc fuel. cbn [length Nat.add Foxpass.all_loop].
    rewrite (truthy_url _ Nu).
    rewrite (all_turn_page u acc (mkState c hs h l ex) r c1 p E Sh).
    rewrite Nx. cbn [net headers handlers log exchanges].
    rewrite IH'. cbn [map concat]. now rewrite <- !app_assoc.
Qed.

Lemma follows_urls hs c u ps tr c1 u1 :
  follows hs c u ps tr c1 u1 ->
  map (fun e => url (fst e)) tr ++ [u1] = u :: map next_of ps.
Proof.
  induction 1 as [c u|c u r c1 p u1 ps tr c' u' E Sh Nx Ne F IH].
  - reflexivity.
  - cbn [map app fst url]. rewrite IH. unfold next_of at 2. now rewrite Nx.
Qed.

Lemma base_url_nonempty endpoint : Foxpass.BASE_URL +:+ endpoint <> "".
Proof. discriminate. Qed.

End Runs.

(** C2. When the service answers with a sequence of pages, each an HTTP
    200 whose envelope says ["ok"], every page but the last naming a
    non-empty [next] and the last one having [next] absent or empty, [all]
    requests the endpoint and then each page's [next] in turn, makes no
    request after the last page, and returns the [data] arrays of the pages
    concatenated in the order received. *)
Theorem all_concatenates_pages `{Network}
  (endpoint : string) (w : state) (ps : list page) (p : page)
  (tr : list (request * outcome response)) (c1 c2 : conn) (u1 : string)
  (r : response) (fuel : nat) :
  follows (headers w) (net w) ("https://api.foxpass.com/v1/" +:+ endpoint)
          ps tr c1 u1 ->
  transmit c1 (mkRequest GET u1 (headers w) None) = (Ok r, c2) ->
  shows r p ->
  last_page p ->
  (length ps < fuel)%nat ->
  Foxpass.all fuel endpoint w
  = Some (Ok (concat (map page_data (ps ++ [p]))),
          mkState c2 (headers w) (handlers w) (log w)
            (exchanges w ++ tr ++
             [(mkRequest GET u1 (headers w) None, Ok r)])) /\
  map (fun e => url (fst e))
      (tr ++ [(mkRequest GET u1 (headers w) None, Ok r)])
  = ("https://api.foxpass.com/v1/" +:+ endpoint) :: map next_of ps.
Proof.
  intros F E Sh L Hfuel. split.
  - destruct (all_loop_follows _ _ _ _ _ _ _ F (base_url_nonempty endpoint))
      as [Nu1 Run].
    destruct w as [c hs h l ex]. cbn [net headers handlers log exchanges] in *.
    unfold Foxpass.all.
    replace fuel with (length ps + S (fuel - S (length ps)))%nat by lia.
    unfold Foxpass.BASE_URL. rewrite Run.
    cbn [Foxpass.all_loop]. rewrite (truthy_url _ Nu1).
    rewrite (all_turn_page u1 _ (mkState c1 hs h l (ex ++ tr)) r c2 p E Sh).
    cbn [net headers handlers log exchanges app].
    rewrite all_loop_done.
    + rewrite map_app, concat_app. cbn [map concat].
      now rewrite app_nil_r, <- app_assoc.
    + destruct L as [-> | ->]; reflexivity.
  - rewrite map_app. cbn [map fst url]. eapply follows_urls. exact F.
Qed.

Lemma all_concatenates_pages_witness :
  fst <$> @Foxpass.all scripted 3 "mac_entries/"
            (@client scripted "key"
               [reply 200 page1; reply 200 page2; reply 200 page3])
  = Some (Ok [PStr "aa:bb:cc:00:00:01"; PStr "aa:bb:cc:00:00:02";
              PStr "aa:bb:cc:00:00:03"; PStr "aa:bb:cc:00:00:04"]).
Proof.
  edestruct (@all_concatenates_pages scripted "mac_entries/"
               (@client scripted "key"
                  [reply 200 page1; reply 200 page2; reply 200 page3])
               [mkPage [PStr "aa:bb:cc:00:00:01"; PStr "aa:bb:cc:00:00:02"]
                       (Some "https://api.foxpass.com/v1/mac_entries/?page=2");
                mkPage [PStr "aa:bb:cc:00:00:03"]
                       (Some "https://api.foxpass.com/v1/mac_entries/?page=3")]
               (mkPage [PStr "aa:bb:cc:00:00:04"] None)) as [Eq _].
  - eapply follows_cons;
      [ reflexivity
      | split; [reflexivity | eexists; repeat split; reflexivity]
      | reflexivity | discriminate | ].
    eapply follows_cons;
      [ reflexivity
      | split; [reflexivity | eexists; repeat split; reflexivity]
      | reflexivity | discriminate | ].
    apply follows_nil.
  - reflexivity.
  - split; [reflexivity | eexists; repeat split; reflexivity].
  - left. reflexivity.
  - cbn. instantiate (1 := 3%nat). lia.
  - rewrite Eq. reflexivity.
Defined.

(** C3. A status other than 200 ends the loop of [all] at once with
    what has been accumulated, and nothing is raised.  So when the pages
    before the failing request are accepted pages that each name the next
    URL, [all] returns exactly the data of those pages; with no page before
    the failure (the first request fails) that is the empty list. *)
Theorem all_returns_partial_on_failure `{Network} :
  (forall u acc w r c fuel,
     u <> "" ->
     transmit (net w) (mkRequest GET u (headers w) None) = (Ok r, c) ->
     status_code r <> 200 ->
     Foxpass.all_loop (S fuel) (PStr u) acc w
     = Some (Ok acc,
             mkState c (headers w) (handlers w) (log w)
               (exchanges w ++ [(mkRequest GET u (headers w) None, Ok r)]))) /\
  (forall endpoint w ps tr c1 c2 u1 r fuel,
     follows (headers w) (net w) ("https://api.foxpass.com/v1/" +:+ endpoint)
             ps tr c1 u1 ->
     transmit c1 (mkRequest GET u1 (headers w) None) = (Ok r, c2) ->
     status_code r <> 200 ->
     (length ps < fuel)%nat ->
     Foxpass.all fuel endpoint w
     = Some (Ok (concat (map page_data ps)),
             mkState c2 (headers w) (handlers w) (log w)
               (exchanges w ++ tr ++
                [(mkRequest GET u1 (headers w) None, Ok r)]))) /\
  (forall endpoint w r c fuel,
     transmit (net w)
       (mkRequest GET ("https://api.foxpass.com/v1/" +:+ endpoint)
                  (headers w) None) = (Ok r, c) ->
     status_code r <> 200 ->
     fst <$> Foxpass.all (S fuel) endpoint w = Some (Ok [])).
Proof.
  assert (Step : forall u acc w r c fuel,
     u <> "" ->
     transmit (net w) (mkRequest GET u (headers w) None) = (Ok r, c) ->
     status_code r <> 200 ->
     Foxpass.all_loop (S fuel) (PStr u) acc w
     = Some (Ok acc,
             mkState c (headers w) (handlers w) (log w)
               (exchanges w ++ [(mkRequest GET u (headers w) None, Ok r)]))).
  { intros u acc w r c fuel Nu E Hs. cbn [Foxpass.all_loop].
    rewrite (truthy_url _ Nu). now rewrite (all_turn_failed u acc w r c E Hs). }
  split; [exact Step|]. split.
  - intros endpoint w ps tr c1 c2 u1 r fuel F E Hs Hfuel.
    destruct (all_loop_follows _ _ _ _ _ _ _ F (base_url_nonempty endpoint))
      as [Nu1 Run].
    destruct w as [c hs h l ex]. cbn [net headers handlers log exchanges] in *.
    unfold Foxpass.all.
    replace fuel with (length ps + S (fuel - S (length ps)))%nat by lia.
    unfold Foxpass.BASE_URL. rewrite Run.
    rewrite (Step u1 _ (mkState c1 hs h l (ex ++ tr)) r c2 _ Nu1 E Hs).
    cbn [net headers handlers log exchanges app].
    now rewrite <- app_assoc.
  - intros endpoint w r c fuel E Hs. unfold Foxpass.all.
    now rewrite (Step _ [] w r c fuel (base_url_nonempty endpoint) E Hs).
Qed.

Lemma all_returns_partial_on_failure_witness :
  fst <$> @Foxpass.all scripted 2 "mac_entries/"
            (@client scripted "key"
               [reply 200 page1; reply 500 (PDict [])])
  = Some (Ok [PStr "aa:bb:cc:00:00:01"; PStr "aa:bb:cc:00:00:02"]).
Proof.
  erewrite (proj1 (proj2 (@all_returns_partial_on_failure scripted))
              "mac_entries/"
              (@client scripted "key" [reply 200 page1; reply 500 (PDict [])])
              [mkPage [PStr "aa:bb:cc:00:00:01"; PStr "aa:bb:cc:00:00:02"]
                      (Some "https://api.foxpass.com/v1/mac_entries/?page=2")]).
  - reflexivity.
  - eapply follows_cons;
      [ reflexivity
      | split; [reflexivity | eexists; repeat split; reflexivity]
      | reflexivity | discriminate | ].
    apply follows_nil.
  - reflexivity.
  - discriminate.
  - cbn. lia.
Defined.

Example all_first_request_fails :
  fst <$> @Foxpass.all scripted 1 "mac_entries/"
            (@client scripted "key" [reply 503 (PDict [])])
  = Some (Ok []).
Proof. reflexivity. Qed.

(** ** How the loop of all can end *)

Section Endings.
Context `{Network}.

Lemma all_turn_inv u acc w t w1 :
  Foxpass.all_turn u acc w = (Ok t, w1) ->
  exists e,
    exchanges w1 = exchanges w ++ [e] /\
    match t with
    | Foxpass.Break _ => stops e
    | Foxpass.Again u1 _ => u1 = u \/ (truthy u1 = false -> stops e)
    end.
Proof.
  unfold Foxpass.all_turn, Foxpass.requests_get.
  destruct u as [| | | |u| |]; try discriminate.
  unfold bind at 1. rewrite requests_send_eq.
  set (rq := mkRequest GET u (headers w) None).
  destruct (transmit (net w) rq) as [[r|e] c]; cbn [fst snd]; [|discriminate].
  destruct (Z.eqb_spec (status_code r) 200) as [S|S]; cbn [negb].
  - unfold bind at 1, response_json.
    destruct (json r) as [[| | | | | |kv]|] eqn:J; try discriminate.
    cbn. destruct (py_eq_str _ "ok") eqn:Q; cbn.
    + destruct (dict_get kv "data") as [d|]; cbn.
      * destruct (py_iter d); cbn; [|discriminate].
        intros [= <- <-]. eexists. split; [reflexivity|]. right. intros T.
        unfold stops. cbn. right. exists kv. repeat split; trivial.
        destruct (dict_get kv "status") as [[]|]; try discriminate.
        cbn in Q. now apply String.eqb_eq in Q as ->.
      * intros [= <- <-]. eexists. split; [reflexivity|]. right. intros T.
        unfold stops. cbn. right. exists kv. repeat split; trivial.
        destruct (dict_get kv "status") as [[]|]; try discriminate.
        cbn in Q. now apply String.eqb_eq in Q as ->.
    + intros [= <- <-]. eexists. split; [reflexivity|]. now left.
  - intros [= <- <-]. eexists. split; [reflexivity|]. unfold stops. cbn.
    now left.
Qed.

Lemma all_loop_stops fuel : forall u acc w res w',
  Foxpass.all_loop fuel u acc w = Some (Ok res, w') ->
  (truthy u = false /\ w' = w) \/
  (exists tr e, exchanges w' = exchanges w ++ tr ++ [e] /\ stops e).
Proof.
  induction fuel as [|fuel IH]; intros u acc w res w'; cbn [Foxpass.all_loop];
    destruct (truthy u) eqn:T; try discriminate;
    try (intros [= <- <-]; now left).
  destruct (Foxpass.all_turn u acc w) as [[[d|u1 d]|e] w1] eqn:Turn;
    try discriminate.
  - intros [= <- <-]. right.
    destruct (all_turn_inv _ _ _ _ _ Turn) as (e & Ex & St).
    exists [], e. now rewrite Ex.
  - intros Run. right.
    destruct (all_turn_inv _ _ _ _ _ Turn) as (e & Ex & St).
    destruct (IH _ _ _ _ _ Run) as [[T1 ->] | (tr & e' & Ex' & St')].
    + exists [], e. split; [now rewrite Ex|].
      destruct St as [-> | St]; [congruence | now apply St].
    + exists (e :: tr), e'. split; [|exact St'].
      rewrite Ex', Ex, <- app_assoc. reflexivity.
Qed.

Lemma all_loop_forever (keeps : conn -> Prop) hs u :
  u <> "" ->
  (forall c, keeps c ->
     exists r c', transmit c (mkRequest GET u hs None) = (Ok r, c') /\
                  refuses r /\ keeps c') ->
  forall fuel acc c h l ex,
    keeps c ->
    Foxpass.all_loop fuel (PStr u) acc (mkState c hs h l ex) = None.
Proof.
  intros Nu Always. induction fuel as [|fuel IH]; intros acc c h l ex K;
    cbn [Foxpass.all_loop]; rewrite (truthy_url _ Nu); [reflexivity|].
  destruct (Always c K) as (r & c' & E & [S (kv & J & Q)] & K').
  rewrite (all_turn_refused u acc (mkState c hs h l ex) r c' kv E S J Q).
  apply IH. exact K'.
Qed.

End Endings.

(** C4. The loop of [all] returns normally only after a request that was
    answered with a status other than 200 or with an accepted page whose
    [next] is falsy.  A 200 whose envelope is not ["ok"] is logged and the
    loop goes on with the same URL and the same data; so when the service
    keeps answering that URL in this way, [all] never returns, whatever
    the fuel. *)
Theorem all_ends_by_exhaustion_or_failure_only `{Network} :
  (forall u acc w r c kv fuel,
     u <> "" ->
     transmit (net w) (mkRequest GET u (headers w) None) = (Ok r, c) ->
     status_code r = 200 ->
     json r = Some (PDict kv) ->
     dict_get kv "status" <> Some (PStr "ok") ->
     Foxpass.all_loop (S fuel) (PStr u) acc w
     = Foxpass.all_loop fuel (PStr u) acc
         (mkState c (headers w) (handlers w)
            (log w ++ [refused_record r kv])
            (exchanges w ++ [(mkRequest GET u (headers w) None, Ok r)]))) /\
  (forall (keeps : conn -> Prop) endpoint w,
     keeps (net w) ->
     (forall c, keeps c ->
        exists r c',
          transmit c (mkRequest GET ("https://api.foxpass.com/v1/" +:+ endpoint)
                                (headers w) None) = (Ok r, c') /\
          refuses r /\ keeps c') ->
     forall fuel, Foxpass.all fuel endpoint w = None) /\
  (forall fuel endpoint w res w',
     Foxpass.all fuel endpoint w = Some (Ok res, w') ->
     exists tr e, exchanges w' = exchanges w ++ tr ++ [e] /\ stops e).
Proof.
  repeat split.
  - intros u acc w r c kv fuel Nu E Hs J Q. cbn [Foxpass.all_loop].
    rewrite (truthy_url _ Nu).
    now rewrite (all_turn_refused u acc w r c kv E Hs J Q).
  - intros keeps endpoint w K Always fuel. unfold Foxpass.all.
    destruct w as [c hs h l ex]. cbn [net headers] in *.
    apply (all_loop_forever keeps hs _ (base_url_nonempty endpoint) Always).
    exact K.
  - intros fuel endpoint w res w' Run. unfold Foxpass.all in Run.
    destruct (all_loop_stops _ _ _ _ _ _ Run) as [[T _] | Hstop];
      [|exact Hstop].
    rewrite (truthy_url _ (base_url_nonempty endpoint)) in T. discriminate.
Qed.

Lemma all_ends_by_exhaustion_or_failure_only_witness :
  @Foxpass.all (constant (reply 200 (PDict [("status", PStr "error")])))
    1000 "mac_entries/"
    (@client (constant (reply 200 (PDict [("status", PStr "error")])))
       "key" tt)
  = None.
Proof.
  apply (proj1 (proj2 (@all_ends_by_exhaustion_or_failure_only
                         (constant (reply 200 (PDict [("status", PStr "error")])))))
           (fun _ => True)); [exact I|].
  intros c _. eexists _, _. split; [reflexivity|]. split; [|exact I].
  split; [reflexivity|]. eexists. split; [reflexivity|]. discriminate.
Defined.

(** ** The batch loop of the driver *)

Section Batch.
Context `{Network}.
Variable MacAddress : string -> option string.

Lemma add_mac_entry_answered g m w r c :
  transmit (net w) (put_prefix (headers w) g m) = (Ok r, c) ->
  (status_code r = 200 -> json r <> None) ->
  exists v,
    MacFoxpass.add_mac_entry g m w
    = (Ok v, mkState c (headers w) (handlers w) (log w ++ update_log r)
               (exchanges w ++ [(put_prefix (headers w) g m, Ok r)])).
Proof.
  intros E J.
  unfold MacFoxpass.add_mac_entry, Foxpass.update, MacFoxpass.ENDPOINT,
    Foxpass.BASE_URL. cbn zeta.
  unfold put_prefix in E. rewrite (bind_send _ _ _ _ _ _ _ E).
  unfold update_log, put_prefix.
  destruct (Z.eqb_spec (status_code r) 200) as [Hs|Hs]; cbn [negb].
  - unfold response_json. destruct (json r) as [v|]; [|now destruct J].
    exists v. cbn. now rewrite app_nil_r.
  - exists PNone. reflexivity.
Qed.

Lemma batch_discards group file mac_address rest good v w w1 :
  MacAddress mac_address = Some good ->
  MacFoxpass.add_mac_entry group good w = (Ok v, w1) ->
  batch MacAddress group file (mac_address :: rest) w
  = batch MacAddress group file rest w1.
Proof. intros V E. cbn [batch]. rewrite V. unfold bind. now rewrite E. Qed.

Lemma batch_skips group file mac_address rest w :
  MacAddress mac_address = None ->
  batch MacAddress group file (mac_address :: rest) w
  = batch MacAddress group file rest
      (mkState (net w) (headers w) (handlers w)
         (log w ++ [skipped file mac_address]) (exchanges w)).
Proof. intros V. cbn [batch]. now rewrite V. Qed.

Lemma emitted_app lv l1 l2 : emitted lv (l1 ++ l2) = emitted lv l1 ++ emitted lv l2.
Proof. unfold emitted. apply List.filter_app. Qed.

Lemma emitted_update_log lv r : lv <> DEBUG -> emitted lv (update_log r) = [].
Proof.
  intros N. unfold update_log. destruct (Z.eqb _ _); [reflexivity|].
  now destruct lv.
Qed.

Lemma accepted_cons m rest :
  accepted MacAddress (m :: rest)
  = match MacAddress m with
    | Some good => good :: accepted MacAddress rest
    | None => accepted MacAddress rest
    end.
Proof. reflexivity. Qed.

Lemma refused_cons m rest :
  refused MacAddress (m :: rest)
  = match MacAddress m with
    | Some _ => refused MacAddress rest
    | None => m :: refused MacAddress rest
    end.
Proof. unfold refused. cbn [List.filter]. now destruct (MacAddress m). Qed.

Lemma emitted_cons lv r l : emitted lv (r :: l) = emitted lv [r] ++ emitted lv l.
Proof. apply (emitted_app lv [r] l). Qed.

Lemma batch_answered (A : answers) group file : forall mac_addresses w,
  exists w' l,
    batch MacAddress group file mac_addresses w = (Ok tt, w') /\
    headers w' = headers w /\
    handlers w' = handlers w /\
    sent w' = sent w ++ map (put_prefix (headers w) group)
                            (accepted MacAddress mac_addresses) /\
    log w' = log w ++ l /\
    (forall lv, lv <> DEBUG ->
       emitted lv l
       = emitted lv (map (skipped file) (refused MacAddress mac_addresses))) /\
    Forall (fun r => lvl r = WARNING \/ lvl r = DEBUG) l.
Proof.
  induction mac_addresses as [|m rest IH]; intros w.
  - exists w, []. cbn. rewrite !app_nil_r. repeat split; trivial.
  - destruct (MacAddress m) as [good|] eqn:V.
    + destruct (A (net w) (put_prefix (headers w) group good))
        as (r & c & E & J).
      destruct (add_mac_entry_answered group good w r c E J) as [v Ev].
      rewrite (batch_discards _ _ _ _ _ _ _ _ V Ev).
      match goal with |- context [batch _ _ _ rest ?w1] =>
        destruct (IH w1) as (w' & l & Eb & Hh & Hl & Hs & Hlog & Hem & Hall)
      end.
      cbn [net headers handlers log exchanges] in *.
      exists w', (update_log r ++ l). repeat split; trivial.
      * rewrite Hs, accepted_cons, V. unfold sent. cbn [exchanges].
        rewrite map_app, <- app_assoc. reflexivity.
      * rewrite Hlog. now rewrite <- app_assoc.
      * intros lv N. rewrite emitted_app, (emitted_update_log _ _ N).
        cbn [app]. now rewrite (Hem lv N), refused_cons, V.
      * apply Forall_app. split; [|exact Hall].
        unfold update_log. destruct (Z.eqb _ _); constructor;
          [now right | constructor].
    + rewrite (batch_skips _ _ _ _ _ V).
      match goal with |- context [batch _ _ _ rest ?w1] =>
        destruct (IH w1) as (w' & l & Eb & Hh & Hl & Hs & Hlog & Hem & Hall)
      end.
      cbn [net headers handlers log exchanges] in *.
      exists w', (skipped file m :: l). repeat split; trivial.
      * rewrite Hs, accepted_cons, V. reflexivity.
      * rewrite Hlog. now rewrite <- app_assoc.
      * intros lv N. rewrite refused_cons, V. cbn [map].
        rewrite (emitted_cons lv _ l), (emitted_cons lv _ (map _ _)).
        now rewrite (Hem lv N).
      * constructor; [now left|exact Hall].
Qed.

Lemma strip_lines_nonblank lines : Forall (fun m => m <> "") (read_addresses lines).
Proof.
  unfold read_addresses. induction lines as [|line lines IH]; [constructor|].
  cbn [List.filter]. destruct (String.eqb_spec (strip line) ""); cbn [negb map].
  - exact IH.
  - constructor; assumption.
Qed.

Lemma read_addresses_blank l1 line l2 :
  strip line = "" -> read_addresses (l1 ++ line :: l2) = read_addresses (l1 ++ l2).
Proof.
  intros B. unfold read_addresses. rewrite !List.filter_app. cbn [List.filter].
  now rewrite B.
Qed.

End Batch.

(** ** The driver *)

Section DriverFacts.
Context `{Network}.
Variable INPUT_DIR : string.
Variable MacAddress : string -> option string.

Lemma startup_exchanges args env w :
  exchanges (snd (startup args env w)) = exchanges w.
Proof.
  unfold startup, setup_logging.
  destruct (logs_dir env) as [[]|]; try reflexivity;
    destruct (FOXPASS_API_KEY env); reflexivity.
Qed.

Lemma get_exchanges endpoint item w :
  exists o,
    exchanges (snd (Foxpass.get endpoint item w))
    = exchanges w ++
      [(mkRequest GET (Foxpass.BASE_URL +:+ endpoint +:+ item) (headers w) None,
        o)].
Proof.
  unfold Foxpass.get. cbn zeta. unfold bind at 1. rewrite requests_send_eq.
  destruct (transmit _ _) as [[r|e] c]; cbn [fst snd];
    eexists; [|reflexivity].
  destruct (negb _); cbn; [reflexivity|].
  unfold response_json. destruct (json r) as [d|]; cbn; [|reflexivity].
  destruct d; cbn; try reflexivity.
  destruct (py_eq_str _ _); reflexivity.
Qed.

Lemma add_mac_entry_exchanges g m w :
  exists o,
    exchanges (snd (MacFoxpass.add_mac_entry g m w))
    = exchanges w ++ [(put_prefix (headers w) g m, o)].
Proof.
  unfold MacFoxpass.add_mac_entry, Foxpass.update, MacFoxpass.ENDPOINT,
    Foxpass.BASE_URL, put_prefix.
  cbn zeta. unfold bind at 1. rewrite requests_send_eq.
  destruct (transmit _ _) as [[r|e] c]; cbn [fst snd];
    eexists; [|reflexivity].
  destruct (negb _); cbn; [reflexivity|].
  unfold response_json. destruct (json r); reflexivity.
Qed.

Lemma batch_exchanges group file : forall mac_addresses w,
  exists tr,
    exchanges (snd (batch MacAddress group file mac_addresses w))
    = exchanges w ++ tr /\
    Forall (fun e => method (fst e) = PUT) tr.
Proof.
  induction mac_addresses as [|m rest IH]; intros w.
  - exists []. cbn. now rewrite app_nil_r.
  - cbn [batch]. destruct (MacAddress m) as [good|].
    + unfold bind at 1.
      destruct (add_mac_entry_exchanges group good w) as (o & Ex).
      destruct (MacFoxpass.add_mac_entry group good w) as [[v|e] w1];
        cbn [snd] in *.
      * destruct (IH w1) as (tr & Etr & Ftr).
        exists ((put_prefix (headers w) group good, o) :: tr).
        split; [|constructor; [reflexivity|exact Ftr]].
        rewrite Etr, Ex, <- app_assoc. reflexivity.
      * exists [(put_prefix (headers w) group good, o)].
        split; [exact Ex|]. repeat constructor.
    + unfold bind at 1. cbn [logger].
      match goal with |- context [batch _ _ _ rest ?w1] =>
        destruct (IH w1) as (tr & Etr & Ftr)
      end.
      exists tr. split; [exact Etr|exact Ftr].
Qed.

Lemma main_reaches_batch args env w w0 group file v w1 lines :
  startup args env w = (Ok tt, w0) ->
  given (mac_group args) = Some group ->
  given (mac_address_file args) = Some file ->
  MacFoxpass.get_mac_group group w0 = (Ok v, w1) ->
  truthy v = true ->
  open_ env (os_path_join INPUT_DIR file) = Some lines ->
  main INPUT_DIR MacAddress args env w
  = batch MacAddress group file (read_addresses lines) w1.
Proof.
  intros St G F Get T O. unfold main. rewrite (bind_ok _ _ _ _ _ St).
  unfold sync. rewrite G, F. rewrite (bind_ok _ _ _ _ _ Get).
  rewrite T. cbn [negb]. cbn zeta. now rewrite O.
Qed.

Lemma main_without_group args env w w0 group file v w1 :
  startup args env w = (Ok tt, w0) ->
  given (mac_group args) = Some group ->
  given (mac_address_file args) = Some file ->
  MacFoxpass.get_mac_group group w0 = (Ok v, w1) ->
  truthy v = false ->
  main INPUT_DIR MacAddress args env w
  = (Raise (SystemExit 1),
     mkState (net w1) (headers w1) (handlers w1)
       (log w1 ++ [mkLog CRITICAL
                     [Lit "Group <"; Lit group;
                      Lit "> does not exist. Please create it first."]])
       (exchanges w1)).
Proof.
  intros St G F Get T. unfold main. rewrite (bind_ok _ _ _ _ _ St).
  unfold sync. rewrite G, F. rewrite (bind_ok _ _ _ _ _ Get).
  rewrite T. reflexivity.
Qed.

End DriverFacts.

(** C6. In a run of the driver, every add-entry request among the
    exchanges it makes comes after the one request of [get_mac_group] for
    the target group, and that call returned a truthy value.  When
    [get_mac_group] returns a falsy value the driver raises [SystemExit(1)]:
    the exit status is not zero, the lookup is the only exchange made, and
    the file of addresses is not read. *)
Theorem no_entry_without_group `{Network}
  (INPUT_DIR : string) (MacAddress : string -> option string)
  (args : Args) (env : environ) (w : state) :
  (forall tr e,
     exchanges (snd (main INPUT_DIR MacAddress args env w)) = exchanges w ++ tr ->
     In e tr -> method (fst e) = PUT ->
     exists w0 group v w1 o tr',
       startup args env w = (Ok tt, w0) /\
       given (mac_group args) = Some group /\
       MacFoxpass.get_mac_group group w0 = (Ok v, w1) /\
       truthy v = true /\
       tr = (mkRequest GET
               ("https://api.foxpass.com/v1/" +:+ "mac_entries/" +:+ group)
               (headers w0) None, o) :: tr' /\
       Forall (fun e' => method (fst e') = PUT) tr') /\
  (forall w0 group file v w1,
     startup args env w = (Ok tt, w0) ->
     given (mac_group args) = Some group ->
     given (mac_address_file args) = Some file ->
     MacFoxpass.get_mac_group group w0 = (Ok v, w1) ->
     truthy v = false ->
     fst (main INPUT_DIR MacAddress args env w) = Raise (SystemExit 1) /\
     exit_status (fst (main INPUT_DIR MacAddress args env w)) <> 0 /\
     exists o,
       exchanges (snd (main INPUT_DIR MacAddress args env w))
       = exchanges w ++
         [(mkRequest GET
             ("https://api.foxpass.com/v1/" +:+ "mac_entries/" +:+ group)
             (headers w0) None, o)]).
Proof.
  split.
  - intros tr e Ex Hin Hput.
    pose proof (startup_exchanges args env w) as Sx.
    unfold main in Ex. unfold bind at 1 in Ex.
    destruct (startup args env w) as [[[]|x] w0] eqn:St; cbn [snd] in Sx.
    2:{ cbn [snd] in Ex. rewrite Sx in Ex.
        rewrite <- (app_nil_r (exchanges w)) in Ex at 1.
        apply app_inv_head in Ex. subst tr. destruct Hin. }
    unfold sync in Ex.
    destruct (given (mac_group args)) as [group|] eqn:G.
    2:{ cbn [snd ret] in Ex. rewrite Sx in Ex.
        rewrite <- (app_nil_r (exchanges w)) in Ex at 1.
        apply app_inv_head in Ex. subst tr. destruct Hin. }
    destruct (given (mac_address_file args)) as [file|] eqn:F.
    2:{ cbn in Ex. rewrite Sx in Ex.
        rewrite <- (app_nil_r (exchanges w)) in Ex at 1.
        apply app_inv_head in Ex. subst tr. destruct Hin. }
    unfold bind at 1 in Ex. unfold MacFoxpass.get_mac_group in *.
    destruct (get_exchanges MacFoxpass.ENDPOINT group w0) as (o & Gx).
    destruct (Foxpass.get MacFoxpass.ENDPOINT group w0) as [[v|x] w1] eqn:Get;
      cbn [snd] in Gx.
    2:{ cbn [snd] in Ex. rewrite Gx, Sx in Ex. apply app_inv_head in Ex.
        subst tr. destruct Hin as [<-|[]]. discriminate. }
    destruct (truthy v) eqn:T; cbn [negb] in Ex.
    2:{ cbn in Ex. rewrite Gx, Sx in Ex. apply app_inv_head in Ex.
        subst tr. destruct Hin as [<-|[]]. discriminate. }
    cbn zeta in Ex.
    destruct (open_ env (os_path_join INPUT_DIR file)) as [lines|].
    2:{ cbn in Ex. rewrite Gx, Sx in Ex. apply app_inv_head in Ex.
        subst tr. destruct Hin as [<-|[]]. discriminate. }
    destruct (batch_exchanges MacAddress group file (read_addresses lines) w1)
      as (tr' & Bx & Ftr).
    rewrite Bx, Gx, Sx, <- app_assoc in Ex. apply app_inv_head in Ex.
    subst tr. exists w0, group, v, w1, o, tr'. repeat split; trivial.
  - intros w0 group file v w1 St G F Get T.
    rewrite (main_without_group INPUT_DIR MacAddress _ _ _ _ _ _ _ _ St G F Get T).
    cbn [fst snd exit_status exchanges]. repeat split; [discriminate|].
    pose proof (startup_exchanges args env w) as Sx. rewrite St in Sx.
    cbn [snd] in Sx. unfold MacFoxpass.get_mac_group in Get.
    destruct (get_exchanges MacFoxpass.ENDPOINT group w0) as (o & Gx).
    rewrite Get in Gx. cbn [snd] in Gx. exists o. now rewrite Gx, Sx.
Qed.

Lemma no_entry_without_group_witness :
  fst (@main scripted "input" MacAddress_spec (office_args false)
         (office_env four_lines) (@fresh scripted [reply 404 (PDict [])]))
  = Raise (SystemExit 1).
Proof.
  refine (proj1 (proj2 (@no_entry_without_group scripted "input" MacAddress_spec
            (office_args false) (office_env four_lines)
            (@fresh scripted [reply 404 (PDict [])]))
            _ "office" "macs.txt" (PDict []) _ eq_refl eq_refl eq_refl eq_refl
            eq_refl)).
Defined.

(** C8. Blank lines never reach the loop.  With a service that answers
    every request, the loop over the remaining lines makes exactly one
    add-entry request for each line [MacAddress] accepts, in order, logs
    exactly one warning for each line it refuses, and goes through all of
    them. *)
Theorem batch_one_put_per_valid_line `{Network}
  (MacAddress : string -> option string) (group file : string)
  (lines : list string) (w : state) :
  answers ->
  Forall (fun m => m <> "") (read_addresses lines) /\
  (forall l1 line l2,
     lines = l1 ++ line :: l2 -> strip line = "" ->
     read_addresses lines = read_addresses (l1 ++ l2)) /\
  exists w',
    batch MacAddress group file (read_addresses lines) w = (Ok tt, w') /\
    sent w' = sent w ++ map (put_prefix (headers w) group)
                            (accepted MacAddress (read_addresses lines)) /\
    emitted WARNING (log w')
    = emitted WARNING (log w)
      ++ map (skipped file) (refused MacAddress (read_addresses lines)) /\
    length (sent w')
    = (length (sent w)
       + length (accepted MacAddress (read_addresses lines)))%nat.
Proof.
  intros A. split; [apply strip_lines_nonblank|]. split.
  - intros l1 line l2 -> B. now apply read_addresses_blank.
  - destruct (batch_answered MacAddress A group file (read_addresses lines) w)
      as (w' & l & E & _ & _ & Hs & Hl & Hem & _).
    exists w'. repeat split; trivial.
    + rewrite Hl, emitted_app, (Hem WARNING) by discriminate.
      f_equal. unfold emitted. apply List.forallb_filter_id.
      apply forallb_forall. intros x Hx. apply in_map_iff in Hx.
      now destruct Hx as (m & <- & _).
    + now rewrite Hs, length_app, length_map.
Qed.

Lemma batch_one_put_per_valid_line_witness :
  sent (snd (@batch (constant (reply 200 office_group)) MacAddress_spec
               "office" "macs.txt" (read_addresses four_lines)
               (@client (constant (reply 200 office_group)) "key" tt)))
  = [put_prefix (Foxpass.init_headers "key") "office" "aa:bb:cc:dd:ee:ff";
     put_prefix (Foxpass.init_headers "key") "office" "11:22:33:44:55:66"].
Proof.
  destruct (@batch_one_put_per_valid_line (constant (reply 200 office_group))
              MacAddress_spec "office" "macs.txt" four_lines
              (@client (constant (reply 200 office_group)) "key" tt))
    as (_ & _ & w' & E & Hs & _).
  - intros c rq. eexists _, _. split; [reflexivity|]. discriminate.
  - rewrite E. cbn [snd]. rewrite Hs. reflexivity.
Defined.

Example end_to_end :
  let run := @main scripted "input" MacAddress_spec (office_args false)
               (office_env four_lines)
               (@fresh scripted
                  [reply 200 office_group; reply 200 office_group;
                   reply 200 office_group]) in
  fst run = Ok tt /\
  map (fun rq => (method rq, url rq, req_json rq)) (sent (snd run))
  = [(GET, "https://api.foxpass.com/v1/mac_entries/office", None);
     (PUT, "https://api.foxpass.com/v1/mac_entries/office/prefixes/",
      Some (PDict [("prefix", PStr "aa:bb:cc:dd:ee:ff")]));
     (PUT, "https://api.foxpass.com/v1/mac_entries/office/prefixes/",
      Some (PDict [("prefix", PStr "11:22:33:44:55:66")]))] /\
  emitted WARNING (log (snd run)) = [skipped "macs.txt" "not-a-mac"].
Proof. cbn zeta. repeat split; vm_compute; reflexivity. Qed.

(** C10, as the code has it. The loop drops what [add_mac_entry]
    returns: the rest of the run does not depend on the value.  With a
    service that answers every request the loop makes the request of every
    accepted address whatever the answers are and ends normally, so that the
    exit status is 0; the driver itself logs only its warnings for refused
    lines, and the one trace of a failed call is the DEBUG record that
    [update] writes for a status other than 200, which no handler at INFO
    or above lets through. *)
Theorem batch_discards_results `{Network}
  (MacAddress : string -> option string) (group file : string) :
  (forall mac_address rest good v w w1,
     MacAddress mac_address = Some good ->
     MacFoxpass.add_mac_entry group good w = (Ok v, w1) ->
     batch MacAddress group file (mac_address :: rest) w
     = batch MacAddress group file rest w1) /\
  (answers ->
   forall mac_addresses w,
   exists w' l,
     batch MacAddress group file mac_addresses w = (Ok tt, w') /\
     exit_status (fst (batch MacAddress group file mac_addresses w)) = 0 /\
     sent w' = sent w ++ map (put_prefix (headers w) group)
                             (accepted MacAddress mac_addresses) /\
     log w' = log w ++ l /\
     Forall (fun r => lvl r = WARNING \/ lvl r = DEBUG) l /\
     emitted INFO l = map (skipped file) (refused MacAddress mac_addresses)) /\
  (forall g m w r c,
     transmit (net w) (put_prefix (headers w) g m) = (Ok r, c) ->
     status_code r <> 200 ->
     MacFoxpass.add_mac_entry g m w
     = (Ok PNone,
        mkState c (headers w) (handlers w) (log w ++ [failure_record r])
          (exchanges w ++ [(put_prefix (headers w) g m, Ok r)]))).
Proof.
  split; [|split].
  - intros. eapply batch_discards; eassumption.
  - intros A mac_addresses w.
    destruct (batch_answered MacAddress A group file mac_addresses w)
      as (w' & l & E & _ & _ & Hs & Hl & Hem & Hall).
    exists w', l. rewrite E. repeat split; trivial.
    rewrite (Hem INFO) by discriminate.
    unfold emitted. apply List.forallb_filter_id.
    apply forallb_forall. intros x Hx. apply in_map_iff in Hx.
    now destruct Hx as (m & <- & _).
  - intros g m w r c E Hs.
    unfold MacFoxpass.add_mac_entry, Foxpass.update, MacFoxpass.ENDPOINT,
      Foxpass.BASE_URL. cbn zeta.
    unfold put_prefix in E. rewrite (bind_send _ _ _ _ _ _ _ E).
    apply Z.eqb_neq in Hs. rewrite Hs. reflexivity.
Qed.

Lemma batch_discards_results_witness :
  fst (@batch (constant (Ok (mkResponse 500 "Server Error" None)))
         MacAddress_spec "office" "macs.txt" (read_addresses four_lines)
         (@client (constant (Ok (mkResponse 500 "Server Error" None)))
            "key" tt))
  = Ok tt.
Proof.
  destruct (proj1 (proj2
              (@batch_discards_results
                 (constant (Ok (mkResponse 500 "Server Error" None)))
                 MacAddress_spec "office" "macs.txt")))
    with (mac_addresses := read_addresses four_lines)
         (w := @client (constant (Ok (mkResponse 500 "Server Error" None)))
                 "key" tt)
    as (w' & l & E & _).
  - intros c rq. eexists _, _. split; [reflexivity|]. discriminate.
  - now rewrite E.
Defined.

(** C10 as stated fails: a failed add-entry call does leave a log
    record.  Run with [--verbose] against a service that has the group and
    answers the PUT with a 500, the driver exits with status 0 and the
    handlers let through the DEBUG record of the failure; against a service
    that answers the PUT with a 200 they do not, so the two runs can be told
    apart. *)
Lemma failed_entry_is_logged :
  let failing := @main scripted "input" MacAddress_spec (office_args true)
                   (office_env ["aa:bb:cc:dd:ee:ff"])
                   (@fresh scripted
                      [reply 200 office_group;
                       Ok (mkResponse 500 "Server Error" None)]) in
  let passing := @main scripted "input" MacAddress_spec (office_args true)
                   (office_env ["aa:bb:cc:dd:ee:ff"])
                   (@fresh scripted
                      [reply 200 office_group; reply 200 office_group]) in
  exit_status (fst failing) = 0 /\
  exit_status (fst passing) = 0 /\
  handlers (snd failing) = Some DEBUG /\
  emitted DEBUG (log (snd failing))
  = emitted DEBUG (log (snd passing))
    ++ [failure_record (mkResponse 500 "Server Error" None)].
Proof. cbn zeta. repeat split; vm_compute; reflexivity. Qed.

(** * Beyond the claims *)

(** ** What the verbs return *)

(** X1. [create] first sets [Content-Type], so its POST already carries
    it; the request goes to the base URL followed by the endpoint.  A
    status other than 200 gives an empty dict and one DEBUG record, whatever
    the body; a 200 gives the parsed body and logs nothing; a 200 whose body
    is not JSON raises. *)
Theorem create_results `{Network} (endpoint : string) (data : pyval) (w : state)
  (r : response) (c : conn) :
  let hs := <["Content-Type" := "application/json"]> (headers w) in
  let rq := mkRequest POST ("https://api.foxpass.com/v1/" +:+ endpoint) hs
                      (Some data) in
  transmit (net w) rq = (Ok r, c) ->
  (status_code r <> 200 ->
   Foxpass.create endpoint data w
   = (Ok (PDict []),
      mkState c hs (handlers w) (log w ++ [failure_record r])
        (exchanges w ++ [(rq, Ok r)]))) /\
  (forall body,
     status_code r = 200 -> json r = Some body ->
     Foxpass.create endpoint data w
     = (Ok body,
        mkState c hs (handlers w) (log w) (exchanges w ++ [(rq, Ok r)]))) /\
  (status_code r = 200 -> json r = None ->
   fst (Foxpass.create endpoint data w) = Raise JSONDecodeError).
Proof.
  cbn zeta. intros E.
  assert (G : Foxpass.create endpoint data w
    = if Z.eqb (status_code r) 200
      then match json r with
           | Some body =>
             (Ok body,
              mkState c (<["Content-Type" := "application/json"]> (headers w))
                (handlers w) (log w)
                (exchanges w ++
                 [(mkRequest POST ("https://api.foxpass.com/v1/" +:+ endpoint)
                     (<["Content-Type" := "application/json"]> (headers w))
                     (Some data), Ok r)]))
           | None =>
             (Raise JSONDecodeError,
              mkState c (<["Content-Type" := "application/json"]> (headers w))
                (handlers w) (log w)
                (exchanges w ++
                 [(mkRequest POST ("https://api.foxpass.com/v1/" +:+ endpoint)
                     (<["Content-Type" := "application/json"]> (headers w))
                     (Some data), Ok r)]))
           end
      else (Ok (PDict []),
            mkState c (<["Content-Type" := "application/json"]> (headers w))
              (handlers w) (log w ++ [failure_record r])
              (exchanges w ++
               [(mkRequest POST ("https://api.foxpass.com/v1/" +:+ endpoint)
                   (<["Content-Type" := "application/json"]> (headers w))
                   (Some data), Ok r)]))).
  { unfold Foxpass.create. unfold bind at 1. cbn [set_header]. cbn zeta.
    unfold Foxpass.BASE_URL.
    rewrite (bind_send POST _ (Some data) _
               (mkState (net w)
                  (<["Content-Type" := "application/json"]> (headers w))
                  (handlers w) (log w) (exchanges w)) r c E).
    cbn [net headers handlers log exchanges].
    destruct (Z.eqb (status_code r) 200); cbn [negb]; [|reflexivity].
    unfold response_json. now destruct (json r). }
  rewrite G. clear G. repeat split.
  - intros Hs. apply Z.eqb_neq in Hs. now rewrite Hs.
  - intros body Hs J. now rewrite Hs, J.
  - intros Hs J. now rewrite Hs, J.
Qed.

Lemma create_results_witness :
  fst (@Foxpass.create scripted "mac_entries/" (PDict [("name", PStr "office")])
         (@client scripted "key" [reply 409 (PDict [("status", PStr "error")])]))
  = Ok (PDict []).
Proof.
  rewrite (proj1 (@create_results scripted "mac_entries/"
             (PDict [("name", PStr "office")])
             (@client scripted "key" [reply 409 (PDict [("status", PStr "error")])])
             (mkResponse 409 "" (Some (PDict [("status", PStr "error")]))) []
             eq_refl)).
  - reflexivity.
  - discriminate.
Defined.

(** X2. [update] and [delete] answer a status other than 200 with [None],
    not with the empty dict of [create] and [get], and log one DEBUG record;
    a 200 gives the parsed body; a 200 whose body is not JSON raises. *)
Theorem update_delete_results `{Network} (endpoint item : string) (data : pyval)
  (w : state) :
  (forall r c,
     let rq := mkRequest PUT ("https://api.foxpass.com/v1/" +:+ endpoint +:+ item)
                         (headers w) (Some data) in
     transmit (net w) rq = (Ok r, c) ->
     Foxpass.update endpoint item data w
     = if Z.eqb (status_code r) 200
       then match json r with
            | Some body => (Ok body, after w c rq (Ok r) [])
            | None => (Raise JSONDecodeError, after w c rq (Ok r) [])
            end
       else (Ok PNone, after w c rq (Ok r) [failure_record r])) /\
  (forall r c,
     let rq := mkRequest DELETE
                 ("https://api.foxpass.com/v1/" +:+ endpoint +:+ item +:+ "/")
                 (headers w) None in
     transmit (net w) rq = (Ok r, c) ->
     Foxpass.delete endpoint item w
     = if Z.eqb (status_code r) 200
       then match json r with
            | Some body => (Ok body, after w c rq (Ok r) [])
            | None => (Raise JSONDecodeError, after w c rq (Ok r) [])
            end
       else (Ok PNone, after w c rq (Ok r) [failure_record r])) /\
  PNone <> PDict [].
Proof.
  split; [|split; [|discriminate]].
  - intros r c rq E. subst rq. unfold Foxpass.update, Foxpass.BASE_URL.
    cbn zeta. rewrite (bind_send _ _ _ _ _ _ _ E). unfold after.
    destruct (Z.eqb (status_code r) 200); cbn [negb]; [|reflexivity].
    unfold response_json. destruct (json r); cbn; now rewrite app_nil_r.
  - intros r c rq E. subst rq. unfold Foxpass.delete, Foxpass.BASE_URL.
    cbn zeta. rewrite (bind_send _ _ _ _ _ _ _ E). unfold after.
    destruct (Z.eqb (status_code r) 200); cbn [negb]; [|reflexivity].
    unfold response_json. destruct (json r); cbn; now rewrite app_nil_r.
Qed.

Lemma update_delete_results_witness :
  fst (@Foxpass.delete scripted "mac_entries/" "office"
         (@client scripted "key" [Ok (mkResponse 404 "Not Found" None)]))
  = Ok PNone.
Proof.
  rewrite (proj1 (proj2 (@update_delete_results scripted "mac_entries/" "office"
             PNone (@client scripted "key" [Ok (mkResponse 404 "Not Found" None)])))
             (mkResponse 404 "Not Found" None) [] eq_refl).
  reflexivity.
Defined.


(** ** The MAC client *)

Lemma status_ok_iff (kv : list (string * pyval)) :
  py_eq_str (match dict_get kv "status" with Some v => v | None => PNone end)
            "ok" = true
  <-> dict_get kv "status" = Some (PStr "ok").
Proof.
  destruct (dict_get kv "status") as [v|]; [|split; discriminate].
  destruct v; cbn; try (split; discriminate).
  destruct (String.eqb_spec s "ok") as [->|N]; split; trivial;
    try discriminate.
  intros [= Q]. now destruct N.
Qed.

(** X3. [is_mac_in_group] asks the URL of the entry under [prefixes/]
    and answers [True] exactly when the status is 200 and the body is an
    envelope whose status is ["ok"].  A status other than 200 gives [False]
    and is logged at ERROR, not at DEBUG as the verbs do. *)
Theorem is_mac_in_group_true_iff `{Network}
  (group mac : string) (w : state) (r : response) (c : conn) :
  transmit (net w) (mkRequest GET (prefix_url group mac) (headers w) None)
  = (Ok r, c) ->
  (fst (MacFoxpass.is_mac_in_group group mac w) = Ok true <->
   status_code r = 200 /\
   exists kv, json r = Some (PDict kv) /\
              dict_get kv "status" = Some (PStr "ok")) /\
  (status_code r <> 200 ->
   MacFoxpass.is_mac_in_group group mac w
   = (Ok false,
      mkState c (headers w) (handlers w)
        (log w ++ [mkLog ERROR [Lit "Request failed with status code ";
                                FmtInt (status_code r); Lit ": ";
                                Lit (text r)]])
        (exchanges w ++
         [(mkRequest GET (prefix_url group mac) (headers w) None, Ok r)]))).
Proof.
  intros E. unfold MacFoxpass.is_mac_in_group, MacFoxpass.ENDPOINT,
    Foxpass.BASE_URL. cbn zeta. unfold prefix_url in E.
  rewrite (bind_send _ _ _ _ _ _ _ E). unfold prefix_url.
  destruct (Z.eqb_spec (status_code r) 200) as [Hs|Hs]; cbn [negb].
  - split; [|intros N; now destruct N].
    unfold response_json. split.
    + destruct (json r) as [v|]; [|discriminate].
      destruct v as [| | | | | |kv]; try discriminate. cbn.
      destruct (py_eq_str _ "ok") eqn:Q; [|discriminate].
      intros _. split; [exact Hs|]. exists kv. split; [reflexivity|].
      now apply status_ok_iff.
    + intros (_ & kv & -> & K). cbn. apply status_ok_iff in K.
      now rewrite K.
  - split; [|reflexivity]. cbn. split; [discriminate|].
    intros [Q _]. now destruct Hs.
Qed.

Lemma is_mac_in_group_true_iff_witness :
  fst (@MacFoxpass.is_mac_in_group scripted "office" "aa:bb:cc:dd:ee:ff"
         (@client scripted "key" [reply 200 office_group]))
  = Ok true.
Proof.
  apply (proj1 (@is_mac_in_group_true_iff scripted "office" "aa:bb:cc:dd:ee:ff"
                  (@client scripted "key" [reply 200 office_group])
                  (mkResponse 200 "" (Some office_group)) [] eq_refl)).
  split; [reflexivity|]. eexists. split; reflexivity.
Defined.

(** X4. [delete_mac_entry] deletes the URL made of the group and the
    address alone: it makes one DELETE there, hands back [None] whenever it
    returns, and that URL is never the one under [prefixes/] that
    [is_mac_in_group] asks (and that [add_mac_entry] writes below). *)
Theorem delete_mac_entry_url `{Network} (group mac : string) (w : state) :
  (exists o,
     exchanges (snd (MacFoxpass.delete_mac_entry group mac w))
     = exchanges w ++
       [(mkRequest DELETE (entry_url group mac) (headers w) None, o)]) /\
  (forall v, fst (MacFoxpass.delete_mac_entry group mac w) = Ok v -> v = PNone) /\
  entry_url group mac <> prefix_url group mac.
Proof.
  split; [|split].
  - unfold MacFoxpass.delete_mac_entry, Foxpass.delete, MacFoxpass.ENDPOINT,
      Foxpass.BASE_URL, entry_url. cbn zeta.
    rewrite !append_assoc.
    unfold bind at 1 2. rewrite requests_send_eq.
    destruct (transmit _ _) as [[r|e] c]; cbn [fst snd];
      eexists; [|reflexivity].
    destruct (negb _); cbn; [reflexivity|].
    unfold response_json. destruct (json r); reflexivity.
  - unfold MacFoxpass.delete_mac_entry. unfold bind at 1.
    destruct (Foxpass.delete _ _ w) as [[x|e] w1]; cbn; [|discriminate].
    now intros v [= <-].
  - unfold entry_url, prefix_url. intros Q.
    apply (f_equal String.length) in Q.
    rewrite !length_append in Q. cbn in Q. lia.
Qed.

(** X5. The driver's test for "the group exists": [get_mac_group]
    returns a truthy value exactly when the status is 200, the envelope
    says ["ok"] and its [data] is itself truthy; an existing group whose
    [data] is empty counts as missing. *)
Theorem get_mac_group_truthy_iff `{Network}
  (group : string) (w : state) (r : response) (c : conn) :
  transmit (net w)
    (mkRequest GET ("https://api.foxpass.com/v1/" +:+ "mac_entries/" +:+ group)
               (headers w) None) = (Ok r, c) ->
  (exists v, fst (MacFoxpass.get_mac_group group w) = Ok v /\ truthy v = true)
  <->
  (status_code r = 200 /\
   exists kv d, json r = Some (PDict kv) /\
                dict_get kv "status" = Some (PStr "ok") /\
                dict_get kv "data" = Some d /\ truthy d = true).
Proof.
  intros E. unfold MacFoxpass.get_mac_group, Foxpass.get, MacFoxpass.ENDPOINT,
    Foxpass.BASE_URL. cbn zeta. rewrite (bind_send _ _ _ _ _ _ _ E).
  destruct (Z.eqb_spec (status_code r) 200) as [Hs|Hs]; cbn [negb].
  - unfold response_json. split.
    + destruct (json r) as [v|]; [|now intros (v & [=] & _)].
      destruct v as [| | | | | |kv]; try now intros (v & [=] & _). cbn.
      destruct (py_eq_str _ "ok") eqn:Q; cbn; [|now intros (v & [= <-] & [=])].
      apply status_ok_iff in Q.
      destruct (dict_get kv "data") as [d|] eqn:D;
        [|now intros (v & [= <-] & [=])].
      intros (v & [= <-] & T). split; [exact Hs|]. now exists kv, d.
    + intros (_ & kv & d & -> & K & D & T). cbn.
      apply status_ok_iff in K. rewrite K. cbn. rewrite D. now exists d.
  - cbn. split; [intros (v & [= <-] & [=])|]. intros [Q _]. now destruct Hs.
Qed.

Lemma get_mac_group_truthy_iff_witness :
  exists v,
    fst (@MacFoxpass.get_mac_group scripted "office"
           (@client scripted "key" [reply 200 office_group])) = Ok v /\
    truthy v = true.
Proof.
  apply (proj2 (@get_mac_group_truthy_iff scripted "office"
                  (@client scripted "key" [reply 200 office_group])
                  (mkResponse 200 "" (Some office_group)) [] eq_refl)).
  split; [reflexivity|]. eexists _, _. repeat split; reflexivity.
Defined.

(** ** What all sends, and what makes it raise *)

Lemma all_turn_exchanges `{Network} u acc w :
  exchanges (snd (Foxpass.all_turn u acc w))
  = exchanges w ++
    match u with
    | PStr s =>
      [(mkRequest GET s (headers w) None,
        fst (transmit (net w) (mkRequest GET s (headers w) None)))]
    | _ => []
    end.
Proof.
  unfold Foxpass.all_turn, Foxpass.requests_get.
  destruct u as [| | | |s| |]; try (cbn; now rewrite app_nil_r).
  unfold bind at 1. rewrite requests_send_eq.
  destruct (transmit _ _) as [[r|e] c]; cbn [fst snd]; [|reflexivity].
  destruct (negb _); [reflexivity|].
  unfold bind at 1, response_json. destruct (json r) as [d|]; [|reflexivity].
  cbn. destruct d as [| | | | | |kv]; try reflexivity. cbn.
  destruct (py_eq_str _ "ok"); cbn; [|reflexivity].
  destruct (dict_get kv "data") as [d|]; cbn; [|reflexivity].
  now destruct (py_iter d).
Qed.

Lemma all_loop_exchanges `{Network} fuel : forall u acc w o w',
  Foxpass.all_loop fuel u acc w = Some (o, w') ->
  exists tr,
    exchanges w' = exchanges w ++ tr /\
    Forall (fun e => method (fst e) = GET /\ req_headers (fst e) = headers w /\
                     req_json (fst e) = None) tr /\
    (length tr <= fuel)%nat /\
    (forall s, u = PStr s -> s <> "" ->
       exists x tr', tr = (mkRequest GET s (headers w) None, x) :: tr').
Proof.
  induction fuel as [|fuel IH]; intros u acc w o w'; cbn [Foxpass.all_loop];
    destruct (truthy u) eqn:T; try discriminate.
  - intros [= <- <-]. exists []. rewrite app_nil_r. repeat split; trivial.
    intros s -> N. rewrite (truthy_url _ N) in T. discriminate.
  - pose proof (all_turn_exchanges u acc w) as Ex.
    pose proof (keeps_all_turn u acc w) as K.
    destruct (Foxpass.all_turn u acc w) as [[[d|u1 d]|e] w1]; cbn [snd] in *.
    + intros [= <- <-]. eexists. split; [exact Ex|].
      destruct u; cbn; repeat split; auto with arith; try discriminate.
      intros s0 [= <-] _. eauto.
    + intros Run. destruct (IH _ _ _ _ _ Run) as (tr & Etr & Ftr & Ltr & _).
      eexists. split; [rewrite Etr, Ex, <- app_assoc; reflexivity|].
      rewrite K in Ftr. split; [|split].
      * apply Forall_app. split; [|exact Ftr]. destruct u; repeat constructor.
      * rewrite length_app. destruct u; cbn; lia.
      * intros s -> _. cbn. eauto.
    + intros [= <- <-]. eexists. split; [exact Ex|].
      destruct u; cbn; repeat split; auto with arith; try discriminate.
      intros s0 [= <-] _. eauto.
  - intros [= <- <-]. exists []. rewrite app_nil_r. repeat split; trivial.
    + cbn. lia.
    + intros s -> N. rewrite (truthy_url _ N) in T. discriminate.
Qed.

(** X6. Whatever the service answers, [all] sends nothing but GET
    requests without a body, each with the header dictionary as the caller
    left it; the first goes to the base URL followed by the endpoint, and
    there is at most one request per turn of the loop. *)
Theorem all_sends_only_gets `{Network} (fuel : nat) (endpoint : string)
  (w : state) (o : outcome (list pyval)) (w' : state) :
  Foxpass.all fuel endpoint w = Some (o, w') ->
  exists x tr,
    exchanges w' = exchanges w ++
      (mkRequest GET ("https://api.foxpass.com/v1/" +:+ endpoint) (headers w)
                 None, x) :: tr /\
    Forall (fun e => method (fst e) = GET /\ req_headers (fst e) = headers w /\
                     req_json (fst e) = None) tr /\
    (S (length tr) <= fuel)%nat /\
    headers w' = headers w.
Proof.
  intros Run. unfold Foxpass.all in Run.
  pose proof (all_loop_headers _ _ _ _ _ _ Run) as Hh.
  destruct (all_loop_exchanges _ _ _ _ _ _ Run) as (tr & Ex & Ftr & Ltr & Hd).
  destruct (Hd _ eq_refl (base_url_nonempty endpoint)) as (x & tr' & ->).
  exists x, tr'. repeat split; trivial.
  now apply Forall_cons in Ftr as [_ Ftr].
Qed.

Lemma all_sends_only_gets_witness :
  exists x tr,
    exchanges (@client scripted "key" []) ++
      (mkRequest GET ("https://api.foxpass.com/v1/" +:+ "mac_entries/")
                 (Foxpass.init_headers "key") None, x) :: tr
    = [(mkRequest GET "https://api.foxpass.com/v1/mac_entries/"
                  (Foxpass.init_headers "key") None,
        reply 200 page1);
       (mkRequest GET "https://api.foxpass.com/v1/mac_entries/?page=2"
                  (Foxpass.init_headers "key") None,
        reply 500 (PDict []))].
Proof.
  destruct (@all_sends_only_gets scripted 2 "mac_entries/"
              (@client scripted "key" [reply 200 page1; reply 500 (PDict [])])
              _ _ eq_refl) as (x & tr & Ex & _).
  exists x, tr. cbn in Ex. cbn. now rewrite <- Ex.
Defined.

(** X7. [list_mac_entries] begins by reading the very URL
    [add_mac_entry] writes to: the entries of a group are listed where they
    are added, under [prefixes/]. *)
Theorem list_mac_entries_reads_what_add_writes `{Network}
  (fuel : nat) (group : string) (w : state)
  (o : outcome (list pyval)) (w' : state) :
  MacFoxpass.list_mac_entries fuel group w = Some (o, w') ->
  exists e tr,
    exchanges w' = exchanges w ++ e :: tr /\
    method (fst e) = GET /\
    forall mac, url (fst e) = url (put_prefix (headers w) group mac).
Proof.
  intros Run. unfold MacFoxpass.list_mac_entries in Run.
  destruct (all_loop_exchanges _ _ _ _ _ _ Run) as (tr & Ex & _ & _ & Hd).
  destruct (Hd _ eq_refl (base_url_nonempty _)) as (x & tr' & ->).
  eexists _, _. split; [exact Ex|]. split; reflexivity.
Qed.

Lemma list_mac_entries_reads_what_add_writes_witness :
  exists e tr,
    exchanges <$> (snd <$> @MacFoxpass.list_mac_entries scripted 1 "office"
                             (@fresh scripted [reply 500 (PDict [])]))
    = Some (e :: tr) /\
    url (fst e) = "https://api.foxpass.com/v1/mac_entries/office/prefixes/".
Proof.
  destruct (@list_mac_entries_reads_what_add_writes scripted 1 "office"
              (@fresh scripted [reply 500 (PDict [])]) _ _ eq_refl)
    as (e & tr & Ex & _ & U).
  exists e, tr. split.
  - cbn in Ex. cbn. now rewrite <- Ex.
  - exact (U "").
Defined.

(** X8. A 200 that [all] cannot read makes it raise, and the data
    gathered so far is lost with it (unlike a status other than 200, which
    returns that data): a body that is not JSON raises [JSONDecodeError], a
    JSON value that is no object raises [AttributeError], an accepted page
    whose [data] is null, a boolean or a number raises [TypeError].  An
    accepted page with no [data] field adds nothing and the loop goes on. *)
Theorem all_raises_on_unreadable_page `{Network}
  (u : string) (acc : list pyval) (w : state) (r : response) (c : conn)
  (fuel : nat) :
  u <> "" ->
  transmit (net w) (mkRequest GET u (headers w) None) = (Ok r, c) ->
  status_code r = 200 ->
  let w1 := mkState c (headers w) (handlers w) (log w)
              (exchanges w ++ [(mkRequest GET u (headers w) None, Ok r)]) in
  (json r = None ->
   Foxpass.all_loop (S fuel) (PStr u) acc w = Some (Raise JSONDecodeError, w1)) /\
  (forall v, json r = Some v -> (forall kv, v <> PDict kv) ->
   Foxpass.all_loop (S fuel) (PStr u) acc w = Some (Raise AttributeError, w1)) /\
  (forall kv d,
     json r = Some (PDict kv) -> dict_get kv "status" = Some (PStr "ok") ->
     dict_get kv "data" = Some d -> not_iterable d ->
     Foxpass.all_loop (S fuel) (PStr u) acc w = Some (Raise TypeError, w1)) /\
  (forall kv,
     json r = Some (PDict kv) -> dict_get kv "status" = Some (PStr "ok") ->
     dict_get kv "data" = None ->
     Foxpass.all_loop (S fuel) (PStr u) acc w
     = Foxpass.all_loop fuel
         (match dict_get kv "next" with Some v => v | None => PNone end)
         acc w1).
Proof.
  intros Nu E Hs. cbn zeta.
  assert (T : Foxpass.all_turn (PStr u) acc w
    = bind (response_json r)
        (fun data =>
           bind (lift (py_get data "status" PNone))
             (fun st =>
                if py_eq_str st "ok"
                then bind (lift (py_get data "data" (PList [])))
                       (fun d => bind (lift (py_iter d))
                          (fun items =>
                             bind (lift (py_get data "next" PNone))
                               (fun next =>
                                  ret (Foxpass.Again next (acc ++ items)))))
                else bind (lift (py_get data "status" PNone))
                       (fun st' =>
                          bind (logger ERROR
                                  [Lit "Request failed with status code ";
                                   FmtInt (status_code r); Lit ": ";
                                   FmtVal st'])
                            (fun _ => ret (Foxpass.Again (PStr u) acc)))))
        (mkState c (headers w) (handlers w) (log w)
           (exchanges w ++ [(mkRequest GET u (headers w) None, Ok r)]))).
  { unfold Foxpass.all_turn, Foxpass.requests_get.
    rewrite (bind_send _ _ _ _ _ _ _ E).
    apply Z.eqb_eq in Hs. now rewrite Hs. }
  cbn [Foxpass.all_loop]. rewrite (truthy_url _ Nu), T. clear T.
  unfold response_json. repeat split.
  - intros J. now rewrite J.
  - intros v J N. rewrite J. destruct v; try reflexivity. now destruct (N kv).
  - intros kv d J K D I. rewrite J. cbn. rewrite K. cbn. rewrite D. cbn.
    destruct d; try reflexivity; destruct I.
  - intros kv J K D. rewrite J. cbn. rewrite K. cbn. rewrite D. cbn.
    now rewrite app_nil_r.
Qed.

Lemma all_raises_on_unreadable_page_witness :
  fst <$> @Foxpass.all scripted 1 "mac_entries/"
            (@client scripted "key" [reply 200 (envelope "ok" PNone None)])
  = Some (Raise TypeError).
Proof.
  exact (f_equal (fmap (M := option) fst)
           (proj1 (proj2 (proj2
              (@all_raises_on_unreadable_page scripted
                 "https://api.foxpass.com/v1/mac_entries/" []
                 (@client scripted "key" [reply 200 (envelope "ok" PNone None)])
                 (mkResponse 200 "" (Some (envelope "ok" PNone None))) [] 0
                 ltac:(discriminate) eq_refl eq_refl)))
              [("status", PStr "ok"); ("data", PNone)] PNone
              eq_refl eq_refl eq_refl I)).
Defined.

(** ** The driver, beyond the lookup of the group *)

Lemma startup_ok `{Network} args env w w0 :
  startup args env w = (Ok tt, w0) ->
  logs_dir env <> Some false /\
  exists key,
    FOXPASS_API_KEY env = Some key /\
    w0 = mkState (net w) (Foxpass.init_headers key)
           (Some (if verbose args then DEBUG else INFO))
           (log w ++ [mkLog INFO [Lit "Logging is set up. Minimum log level: ";
                                  Lit (getLevelName
                                         (if verbose args then DEBUG else INFO))]])
           (exchanges w).
Proof.
  unfold startup, setup_logging.
  destruct (logs_dir env) as [[]|]; try discriminate;
    (destruct (FOXPASS_API_KEY env) as [key|]; [|discriminate]);
    cbn; intros [= <-]; (split; [discriminate|]); now exists key.
Qed.

(** X9. The driver sends nothing unless it has everything it needs: a
    run of [main] that makes any exchange had a usable [logs] directory, the
    API key in the environment, a group name and a file name on the command
    line. *)
Theorem main_sends_nothing_unless_configured `{Network}
  (INPUT_DIR : string) (MacAddress : string -> option string)
  (args : Args) (env : environ) (w : state) :
  exchanges (snd (main INPUT_DIR MacAddress args env w)) <> exchanges w ->
  logs_dir env <> Some false /\
  (exists key, FOXPASS_API_KEY env = Some key) /\
  (exists group, given (mac_group args) = Some group) /\
  (exists file, given (mac_address_file args) = Some file).
Proof.
  intros Ne. pose proof (startup_exchanges args env w) as Sx.
  unfold main in Ne. unfold bind at 1 in Ne.
  destruct (startup args env w) as [[[]|x] w0] eqn:St; cbn [snd] in *;
    [|now destruct Ne].
  destruct (startup_ok _ _ _ _ St) as (L & key & K & _).
  split; [exact L|]. split; [now exists key|].
  unfold sync in Ne.
  destruct (given (mac_group args)) as [group|]; [|now destruct Ne].
  split; [now exists group|].
  destruct (given (mac_address_file args)) as [file|]; [now exists file|].
  now destruct Ne.
Qed.

Lemma main_sends_nothing_unless_configured_witness :
  exists key, FOXPASS_API_KEY (office_env four_lines) = Some key.
Proof.
  apply (@main_sends_nothing_unless_configured scripted "input" MacAddress_spec
           (office_args false) (office_env four_lines)
           (@fresh scripted [reply 404 (PDict [])])).
  discriminate.
Defined.

(** X10. The fatal preconditions, in the order the driver meets them.
    A [logs] directory that cannot be written raises [PermissionError]
    before anything is logged.  A missing API key logs one CRITICAL record
    and raises [SystemExit(1)].  A group without a file name does the same,
    without looking the group up.  No group at all is not an error: the
    driver ends with status 0 having sent nothing. *)
Theorem main_fatal_preconditions `{Network}
  (INPUT_DIR : string) (MacAddress : string -> option string)
  (args : Args) (env : environ) (w : state) :
  let run := main INPUT_DIR MacAddress args env w in
  let lv := if verbose args then DEBUG else INFO in
  let set_up := mkLog INFO [Lit "Logging is set up. Minimum log level: ";
                            Lit (getLevelName lv)] in
  (logs_dir env = Some false ->
   run = (Raise PermissionError, w) /\ exit_status (fst run) = 1) /\
  (logs_dir env <> Some false -> FOXPASS_API_KEY env = None ->
   fst run = Raise (SystemExit 1) /\
   log (snd run)
   = log w ++ [set_up;
               mkLog CRITICAL
                 [Lit "Please set the FOXPASS_API_KEY environment variable."]] /\
   exchanges (snd run) = exchanges w) /\
  (forall key group,
     logs_dir env <> Some false -> FOXPASS_API_KEY env = Some key ->
     given (mac_group args) = Some group ->
     given (mac_address_file args) = None ->
     fst run = Raise (SystemExit 1) /\
     emitted CRITICAL (log (snd run))
     = emitted CRITICAL (log w)
       ++ [mkLog CRITICAL
             [Lit "Please specify the filename containing the MAC addresses to add with --mac-address-file [filename.txt]."]] /\
     exchanges (snd run) = exchanges w) /\
  (forall key,
     logs_dir env <> Some false -> FOXPASS_API_KEY env = Some key ->
     given (mac_group args) = None ->
     run = (Ok tt,
            mkState (net w) (Foxpass.init_headers key) (Some lv)
              (log w ++ [set_up]) (exchanges w)) /\
     exit_status (fst run) = 0).
Proof.
  cbn zeta. split; [|split; [|split]].
  - intros L. unfold main, startup, setup_logging. rewrite L. now split.
  - intros L K. unfold main, startup, setup_logging.
    destruct (logs_dir env) as [[]|]; try (now destruct L);
      rewrite K; cbn; now rewrite <- app_assoc.
  - intros key group L K G F. unfold main, startup, setup_logging, sync.
    destruct (logs_dir env) as [[]|]; try (now destruct L);
      rewrite K; cbn; rewrite G, F; cbn;
      (split; [reflexivity|]); (split; [|reflexivity]);
      unfold emitted; rewrite !List.filter_app; cbn; now rewrite app_nil_r.
  - intros key L K G. unfold main, startup, setup_logging, sync.
    destruct (logs_dir env) as [[]|]; try (now destruct L);
      rewrite K; cbn; now rewrite G.
Qed.

Lemma main_fatal_preconditions_witness :
  exit_status
    (fst (@main scripted "input" MacAddress_spec (office_args false)
            (mkEnviron None (Some true) (fun _ => Some four_lines))
            (@fresh scripted [])))
  = 1.
Proof.
  destruct (proj1 (proj2
              (@main_fatal_preconditions scripted "input" MacAddress_spec
                 (office_args false)
                 (mkEnviron None (Some true) (fun _ => Some four_lines))
                 (@fresh scripted [])))) as (E & _).
  - discriminate.
  - reflexivity.
  - now rewrite E.
Defined.

Lemma batch_requests `{Network} (MacAddress : string -> option string)
  group file : forall mac_addresses w,
  exists tr,
    exchanges (snd (batch MacAddress group file mac_addresses w))
    = exchanges w ++ tr /\
    Forall (fun e => req_headers (fst e) = headers w) tr.
Proof.
  induction mac_addresses as [|m rest IH]; intros w.
  - exists []. cbn. now rewrite app_nil_r.
  - cbn [batch]. destruct (MacAddress m) as [good|].
    + unfold bind at 1.
      destruct (add_mac_entry_exchanges group good w) as (o & Ex).
      pose proof (keeps_update MacFoxpass.ENDPOINT (group +:+ "/prefixes/")
                    (PDict [("prefix", PStr good)]) w) as K.
      fold (MacFoxpass.add_mac_entry group good) in K.
      destruct (MacFoxpass.add_mac_entry group good w) as [[v|e] w1];
        cbn [snd] in *.
      * destruct (IH w1) as (tr & Etr & Ftr). rewrite K in Ftr.
        exists ((put_prefix (headers w) group good, o) :: tr).
        split; [|constructor; [reflexivity|exact Ftr]].
        rewrite Etr, Ex, <- app_assoc. reflexivity.
      * exists [(put_prefix (headers w) group good, o)].
        split; [exact Ex|]. repeat constructor.
    + unfold bind at 1. cbn [logger].
      match goal with |- context [batch _ _ _ rest ?w1] =>
        destruct (IH w1) as (tr & Etr & Ftr)
      end.
      exists tr. split; [exact Etr|exact Ftr].
Qed.

(** X11. Every request the driver sends is authenticated with the key
    from the environment: its headers are those of the fresh client, that
    is [Authorization: Token <key>] and [accept: application/json], and no
    [Content-Type], since the driver never calls [create]. *)
Theorem main_requests_carry_the_key `{Network}
  (INPUT_DIR : string) (MacAddress : string -> option string)
  (args : Args) (env : environ) (w : state)
  (tr : list (request * outcome response)) (e : request * outcome response) :
  exchanges (snd (main INPUT_DIR MacAddress args env w)) = exchanges w ++ tr ->
  In e tr ->
  exists key,
    FOXPASS_API_KEY env = Some key /\
    req_headers (fst e) !! "Authorization" = Some ("Token " +:+ key) /\
    req_headers (fst e) !! "accept" = Some "application/json" /\
    req_headers (fst e) !! "Content-Type" = None.
Proof.
  intros Ex Hin.
  assert (Hk : forall key, req_headers (fst e) = Foxpass.init_headers key ->
    req_headers (fst e) !! "Authorization" = Some ("Token " +:+ key) /\
    req_headers (fst e) !! "accept" = Some "application/json" /\
    req_headers (fst e) !! "Content-Type" = None).
  { intros key ->. unfold Foxpass.init_headers. split; [|split].
    - apply lookup_insert_eq.
    - rewrite lookup_insert_ne by discriminate. apply lookup_insert_eq.
    - rewrite !lookup_insert_ne by discriminate. apply lookup_empty. }
  pose proof (startup_exchanges args env w) as Sx.
  unfold main in Ex. unfold bind at 1 in Ex.
  assert (Nil : forall w1, exchanges w1 = exchanges w ->
            exchanges w1 = exchanges w ++ tr -> False).
  { intros w1 Q Q'. rewrite Q in Q'.
    rewrite <- (app_nil_r (exchanges w)) in Q' at 1.
    apply app_inv_head in Q'. subst tr. destruct Hin. }
  destruct (startup args env w) as [[[]|x] w0] eqn:St; cbn [snd] in *;
    [|now destruct (Nil _ Sx Ex)].
  destruct (startup_ok _ _ _ _ St) as (_ & key & K & W0).
  exists key. split; [exact K|]. apply Hk.
  assert (Hh : headers w0 = Foxpass.init_headers key) by now rewrite W0.
  unfold sync in Ex.
  destruct (given (mac_group args)) as [group|];
    [|now destruct (Nil _ Sx Ex)].
  destruct (given (mac_address_file args)) as [file|];
    [|now destruct (Nil _ Sx Ex)].
  unfold bind at 1 in Ex. unfold MacFoxpass.get_mac_group in Ex.
  destruct (get_exchanges MacFoxpass.ENDPOINT group w0) as (o & Gx).
  pose proof (keeps_get MacFoxpass.ENDPOINT group w0) as Kg.
  destruct (Foxpass.get MacFoxpass.ENDPOINT group w0) as [[v|x] w1];
    cbn [snd] in *.
  2:{ rewrite Gx, Sx in Ex. apply app_inv_head in Ex. subst tr.
      destruct Hin as [<-|[]]. exact Hh. }
  destruct (truthy v); cbn [negb] in Ex.
  2:{ cbn in Ex. rewrite Gx, Sx in Ex. apply app_inv_head in Ex. subst tr.
      destruct Hin as [<-|[]]. exact Hh. }
  cbn zeta in Ex.
  destruct (open_ env (os_path_join INPUT_DIR file)) as [lines|].
  2:{ cbn in Ex. rewrite Gx, Sx in Ex. apply app_inv_head in Ex. subst tr.
      destruct Hin as [<-|[]]. exact Hh. }
  destruct (batch_requests MacAddress group file (read_addresses lines) w1)
    as (tr' & Bx & Ftr).
  rewrite Bx, Gx, Sx, <- app_assoc in Ex. apply app_inv_head in Ex. subst tr.
  destruct Hin as [<-|Hin]; [exact Hh|].
  rewrite Forall_forall in Ftr. rewrite (Ftr e), Kg; [exact Hh|].
  now apply list_elem_of_In.
Qed.

Lemma main_requests_carry_the_key_witness :
  exists key,
    FOXPASS_API_KEY (office_env four_lines) = Some key /\
    Foxpass.init_headers "key" !! "Authorization" = Some ("Token " +:+ key) /\
    Foxpass.init_headers "key" !! "accept" = Some "application/json" /\
    Foxpass.init_headers "key" !! "Content-Type" = None.
Proof.
  exact (@main_requests_carry_the_key scripted "input" MacAddress_spec
           (office_args false) (office_env four_lines)
           (@fresh scripted [reply 404 (PDict [])])
           [(mkRequest GET "https://api.foxpass.com/v1/mac_entries/office"
                       (Foxpass.init_headers "key") None,
             reply 404 (PDict []))]
           (mkRequest GET "https://api.foxpass.com/v1/mac_entries/office"
                      (Foxpass.init_headers "key") None,
            reply 404 (PDict []))
           eq_refl (or_introl eq_refl)).
Defined.

(** X12. A call that raises stops the batch.  When the lines before an
    accepted address are all refused and the request for that address raises
    in [requests], the driver has logged one warning per refused line, made
    that one request, and ends with the exception: the addresses after it
    are never sent and the exit status is 1. *)
Theorem batch_stops_when_a_call_raises `{Network}
  (MacAddress : string -> option string) (group file : string)
  (before : list string) (mac_address good : string) (rest : list string)
  (w : state) (x : exn) (c : conn) :
  Forall (fun m => MacAddress m = None) before ->
  MacAddress mac_address = Some good ->
  transmit (net w) (put_prefix (headers w) group good) = (Raise x, c) ->
  batch MacAddress group file (before ++ mac_address :: rest) w
  = (Raise x,
     mkState c (headers w) (handlers w)
       (log w ++ map (skipped file) before)
       (exchanges w ++ [(put_prefix (headers w) group good, Raise x)])) /\
  ((forall code, x <> SystemExit code) ->
   exit_status
     (fst (batch MacAddress group file (before ++ mac_address :: rest) w)) = 1).
Proof.
  intros Hb V E.
  assert (Run : batch MacAddress group file (before ++ mac_address :: rest) w
    = (Raise x,
       mkState c (headers w) (handlers w)
         (log w ++ map (skipped file) before)
         (exchanges w ++ [(put_prefix (headers w) group good, Raise x)]))).
  { revert w E. induction Hb as [|m before Hm Hb IH]; intros w E.
    - cbn [app batch map]. rewrite V, app_nil_r.
      unfold MacFoxpass.add_mac_entry, Foxpass.update, MacFoxpass.ENDPOINT,
        Foxpass.BASE_URL. cbn zeta. unfold bind at 1 2.
      rewrite requests_send_eq. unfold put_prefix in E. rewrite E.
      reflexivity.
    - cbn [app]. rewrite (batch_skips _ _ _ _ _ _ Hm).
      rewrite IH by exact E. cbn [net headers handlers log exchanges map].
      now rewrite <- app_assoc. }
  split; [exact Run|]. intros N. rewrite Run. cbn.
  destruct x; try reflexivity. now destruct (N code).
Qed.

Lemma batch_stops_when_a_call_raises_witness :
  sent (snd (@batch scripted MacAddress_spec "office" "macs.txt"
               ["not-a-mac"; "aa:bb:cc:dd:ee:ff"; "11-22-33-44-55-66"]
               (@client scripted "key" [])))
  = [put_prefix (Foxpass.init_headers "key") "office" "aa:bb:cc:dd:ee:ff"].
Proof.
  assert (B : Forall (fun m => MacAddress_spec m = None) ["not-a-mac"])
    by (repeat constructor).
  exact (f_equal (fun p => sent (snd p))
           (proj1 (@batch_stops_when_a_call_raises scripted MacAddress_spec
              "office" "macs.txt" ["not-a-mac"] "aa:bb:cc:dd:ee:ff"
              "aa:bb:cc:dd:ee:ff" ["11-22-33-44-55-66"]
              (@client scripted "key" [])
              (RequestException "ConnectionError") []
              B eq_refl eq_refl))).
Defined.

(** ** The handlers of setup_logging *)

(** X13. With the handlers [setup_logging] installs, a record at or
    above the minimum level is written by exactly two of them: the file
    handler named after the record's own level, and the console.  A record
    below the minimum level is written by none.  So the records that reach
    any handler are those [emitted] keeps. *)
Theorem each_record_goes_to_its_level_file
  (min_log_level : level) (r : log_record) :
  List.filter (fun h => handles h r) (installed min_log_level)
  = (if Z.leb (levelno min_log_level) (levelno (lvl r))
     then [mkHandler (level_file (lvl r)) (lvl r) (Some (lvl r));
           mkHandler "console" min_log_level None]
     else []) /\
  (forall l,
     emitted min_log_level l
     = List.filter (fun r' => existsb (fun h => handles h r')
                                      (installed min_log_level)) l) /\
  map level_file log_levels
  = ["logs/debug.log"; "logs/info.log"; "logs/warning.log"; "logs/error.log";
     "logs/critical.log"].
Proof.
  split; [|split].
  - destruct r as [l m]. destruct min_log_level, l; reflexivity.
  - intros l. unfold emitted. apply List.filter_ext. intros [l' m].
    destruct min_log_level, l'; reflexivity.
  - reflexivity.
Qed.

(** ** The client across calls *)

(** X14. Once [add_mac_group] (that is, [create]) has been called, the
    client keeps [Content-Type: application/json] in its headers: a later
    [add_mac_entry] sends it, together with the headers the client had
    before, whereas on a client that has not created anything the same call
    sends the headers as constructed. *)
Theorem content_type_sticks_after_create `{Network}
  (name group mac : string) (w : state) :
  let w1 := snd (MacFoxpass.add_mac_group name w) in
  sent (snd (MacFoxpass.add_mac_entry group mac w1))
  = sent w1 ++
    [put_prefix (<["Content-Type" := "application/json"]> (headers w))
                group mac] /\
  sent (snd (MacFoxpass.add_mac_entry group mac w))
  = sent w ++ [put_prefix (headers w) group mac] /\
  forall k, k <> "Content-Type" ->
    headers w1 !! k = headers w !! k.
Proof.
  cbn zeta. unfold MacFoxpass.add_mac_group.
  pose proof (create_headers MacFoxpass.ENDPOINT
                (PDict [("name", PStr name)]) w) as Hc.
  split; [|split].
  - destruct (add_mac_entry_exchanges group mac
                (snd (Foxpass.create MacFoxpass.ENDPOINT
                        (PDict [("name", PStr name)]) w))) as (o & Ex).
    unfold sent. rewrite Ex, map_app, Hc. reflexivity.
  - destruct (add_mac_entry_exchanges group mac w) as (o & Ex).
    unfold sent. rewrite Ex, map_app. reflexivity.
  - intros k Nk. rewrite Hc. now apply lookup_insert_ne.
Qed.

(** X15. None of the calls catches what [requests] raises: when the
    request itself raises, [get], [create], [update], [delete] and
    [is_mac_in_group] raise the same exception, with the attempt recorded
    and nothing logged. *)
Theorem verbs_propagate_exceptions `{Network}
  (endpoint item group mac : string) (data : pyval) (w : state) (x : exn) :
  (forall c, transmit (net w)
               (mkRequest GET (Foxpass.BASE_URL +:+ endpoint +:+ item)
                          (headers w) None) = (Raise x, c) ->
     fst (Foxpass.get endpoint item w) = Raise x /\
     log (snd (Foxpass.get endpoint item w)) = log w) /\
  (forall c, transmit (net w)
               (mkRequest POST (Foxpass.BASE_URL +:+ endpoint)
                          (<["Content-Type" := "application/json"]> (headers w))
                          (Some data)) = (Raise x, c) ->
     fst (Foxpass.create endpoint data w) = Raise x /\
     log (snd (Foxpass.create endpoint data w)) = log w) /\
  (forall c, transmit (net w)
               (mkRequest PUT (Foxpass.BASE_URL +:+ endpoint +:+ item)
                          (headers w) (Some data)) = (Raise x, c) ->
     fst (Foxpass.update endpoint item data w) = Raise x /\
     log (snd (Foxpass.update endpoint item data w)) = log w) /\
  (forall c, transmit (net w)
               (mkRequest DELETE (Foxpass.BASE_URL +:+ endpoint +:+ item +:+ "/")
                          (headers w) None) = (Raise x, c) ->
     fst (Foxpass.delete endpoint item w) = Raise x /\
     log (snd (Foxpass.delete endpoint item w)) = log w) /\
  (forall c, transmit (net w)
               (mkRequest GET (prefix_url group mac) (headers w) None)
             = (Raise x, c) ->
     fst (MacFoxpass.is_mac_in_group group mac w) = Raise x /\
     log (snd (MacFoxpass.is_mac_in_group group mac w)) = log w).
Proof.
  repeat split.
  all: try (unfold Foxpass.get, Foxpass.update, Foxpass.delete,
              MacFoxpass.is_mac_in_group, MacFoxpass.ENDPOINT; cbn zeta;
            unfold bind at 1; rewrite requests_send_eq;
            unfold prefix_url, Foxpass.BASE_URL in *; rewrite H0;
            reflexivity).
  all: unfold Foxpass.create; unfold bind at 1; cbn [set_header]; cbn zeta;
    unfold bind at 1; rewrite requests_send_eq;
    cbn [net headers handlers log exchanges]; rewrite H0; reflexivity.
Qed.

Lemma verbs_propagate_exceptions_witness :
  fst (@MacFoxpass.is_mac_in_group scripted "office" "aa:bb:cc:dd:ee:ff"
         (@client scripted "key" []))
  = Raise (RequestException "ConnectionError").
Proof.
  exact (proj1 (proj2 (proj2 (proj2 (proj2
           (@verbs_propagate_exceptions scripted "" "" "office"
              "aa:bb:cc:dd:ee:ff" PNone (@client scripted "key" [])
              (RequestException "ConnectionError"))))) [] eq_refl)).
Defined.

(** ** The lines of the address file *)

Lemma rev_app_rev_app (s a b : string) :
  String.rev_app (String.rev_app s a) b = String.rev_app a (s +:+ b).
Proof.
  revert a. induction s as [|x s IH]; intros a; [reflexivity|].
  cbn [String.rev_app]. rewrite IH. reflexivity.
Qed.

Lemma append_nil_r (s : string) : s +:+ "" = s.
Proof.
  induction s as [|x s IH]; [reflexivity|].
  change (String x (s +:+ "") = String x s). now rewrite IH.
Qed.

Lemma rev_involutive (s : string) : String.rev (String.rev s) = s.
Proof.
  unfold String.rev. rewrite rev_app_rev_app. cbn. apply append_nil_r.
Qed.

Lemma rev_app_append (s a : string) :
  String.rev_app s a = String.rev s +:+ a.
Proof.
  unfold String.rev. revert a. induction s as [|x s IH]; intros a;
    [reflexivity|].
  cbn [String.rev_app]. rewrite IH, (IH (String x "")), append_assoc.
  reflexivity.
Qed.

Lemma rev_append (a b : string) :
  String.rev (a +:+ b) = String.rev b +:+ String.rev a.
Proof.
  induction a as [|x a IH].
  - cbn. now rewrite append_nil_r.
  - change (String.rev (String x (a +:+ b))
            = String.rev b +:+ String.rev (String x a)).
    unfold String.rev at 1 3. cbn [String.rev_app].
    rewrite !rev_app_append, IH, append_assoc. reflexivity.
Qed.

Lemma lstrip_idem (s : string) : lstrip (lstrip s) = lstrip s.
Proof.
  induction s as [|x s IH]; [reflexivity|].
  cbn [lstrip]. destruct (isspace x) eqn:Sp; [exact IH|].
  cbn [lstrip]. now rewrite Sp.
Qed.

Lemma lstrip_suffix (s : string) : exists p, s = p +:+ lstrip s.
Proof.
  induction s as [|x s [p IH]]; [now exists ""|].
  cbn [lstrip]. destruct (isspace x).
  - exists (String x p). change (String x s = String x (p +:+ lstrip s)).
    now rewrite <- IH.
  - now exists "".
Qed.

Lemma lstrip_prefix_of_clean (a b : string) :
  lstrip (a +:+ b) = a +:+ b -> lstrip a = a.
Proof.
  destruct a as [|x a]; [reflexivity|].
  change (lstrip (String x (a +:+ b)) = String x (a +:+ b)
          -> lstrip (String x a) = String x a).
  cbn [lstrip]. destruct (isspace x); [|reflexivity].
  intros Q. exfalso.
  destruct (lstrip_suffix (a +:+ b)) as [p Hp].
  apply (f_equal String.length) in Q. apply (f_equal String.length) in Hp.
  rewrite (length_append p) in Hp.
  change (String.length (String x (a +:+ b)))
    with (S (String.length (a +:+ b))) in Q.
  lia.
Qed.

Lemma rstrip_idem (s : string) : rstrip (rstrip s) = rstrip s.
Proof. unfold rstrip. now rewrite rev_involutive, lstrip_idem. Qed.

Lemma strip_idem (s : string) : strip (strip s) = strip s.
Proof.
  unfold strip.
  assert (L : lstrip (rstrip (lstrip s)) = rstrip (lstrip s)).
  { destruct (lstrip_suffix (String.rev (lstrip s))) as [p Hp].
    apply (f_equal String.rev) in Hp.
    rewrite rev_involutive, rev_append in Hp.
    fold (rstrip (lstrip s)) in Hp.
    apply (lstrip_prefix_of_clean _ (String.rev p)).
    now rewrite <- Hp, lstrip_idem. }
  now rewrite L, rstrip_idem.
Qed.

(** X16. The addresses the driver works on are clean: each is a line
    of the file with the whitespace at both ends removed, none is empty,
    stripping one again changes nothing, and reading the cleaned lines once
    more gives the same list, in the same order. *)
Theorem read_addresses_clean (lines : list string) :
  Forall (fun m => m <> "" /\ strip m = m /\ exists line, In line lines /\ m = strip line)
         (read_addresses lines) /\
  read_addresses (read_addresses lines) = read_addresses lines /\
  (length (read_addresses lines) <= length lines)%nat.
Proof.
  unfold read_addresses. induction lines as [|line lines (F & I & L)].
  - repeat split; [constructor | cbn; lia].
  - cbn [List.filter]. destruct (String.eqb_spec (strip line) "") as [B|B];
      cbn [negb map].
    + split; [|split; [exact I | cbn; lia]].
      eapply Forall_impl; [exact F|]. intros m (N & S & l' & Hin & E).
      repeat split; trivial. exists l'. split; [now right|exact E].
    + split; [|split].
      * constructor.
        -- split; [exact B|]. split; [apply strip_idem|].
           exists line. split; [now left|reflexivity].
        -- eapply Forall_impl; [exact F|]. intros m (N & S & l' & Hin & E).
           repeat split; trivial. exists l'. split; [now right|exact E].
      * cbn [List.filter]. rewrite strip_idem.
        destruct (String.eqb_spec (strip line) ""); [contradiction|].
        cbn [negb map]. now rewrite strip_idem, I.
      * cbn [length]. lia.
Qed.
